(** * Build-time configuration of the pecos package: [setup.py]

    A shallow embedding of the version helper, the BLAS locator and the
    extension descriptor of [setup.py], with the properties the specification
    states about them.

    Conventions of the model.
    - A Python [str] is a list of characters; a character is a code point
      below 256 (the type [ascii]).  The character classes used by
      [str.strip], [str.splitlines] and the pattern class [\d] are written
      out for that range.
    - The file system is a finite map from absolute paths to file contents;
      a path names one file (paths are normalised and free of symbolic
      links), a relative path is taken under the working directory, and a
      write succeeds.  Text files are written without newline translation
      and read with universal newlines, as [open] does on a POSIX host.
    - The git executable can be run; its output is given decoded.
    - [os.environ] and the dictionary returned by NumPy's [get_info] are
      finite maps with string keys.
    - Exceptions are values of [exn]; a computation that raises keeps the
      effects it had before raising. *)

From Stdlib Require Import ZArith NArith Ascii String List.
From stdpp Require Import base option list gmap strings fin_maps.

Local Open Scope list_scope.

(** ** Text *)

Abbreviation str := (list ascii).

(** A Python string literal. *)
Definition py (s : string) : str := list_ascii_of_string s.

Definition LF : ascii := "010"%char.
Definition CR : ascii := "013"%char.
Definition DQUOTE : ascii := "034"%char.
Definition SQUOTE : ascii := "039"%char.

Definition chr_eqb (a b : ascii) : bool := Ascii.eqb a b.

Definition ord (c : ascii) : N := N_of_ascii c.

(** [str.isspace] on one character: TAB, LF, VT, FF, CR, FS, GS, RS, US,
    SPACE, NEL and NBSP. *)
Definition isspace (c : ascii) : bool :=
  let n := ord c in
  ((9 <=? n) && (n <=? 13) || (28 <=? n) && (n <=? 32)
   || (n =? 133) || (n =? 160))%N.

(** The class [\d] of the [re] module. *)
Definition isdigit (c : ascii) : bool :=
  let n := ord c in ((48 <=? n) && (n <=? 57))%N.

(** The line boundaries of [str.splitlines]: LF, VT, FF, CR, FS, GS, RS and
    NEL. *)
Definition is_linebreak (c : ascii) : bool :=
  let n := ord c in
  ((10 <=? n) && (n <=? 13) || (28 <=? n) && (n <=? 30) || (n =? 133))%N.

Fixpoint dropwhile {A} (f : A -> bool) (l : list A) : list A :=
  match l with
  | [] => []
  | x :: l' => if f x then dropwhile f l' else l
  end.

Fixpoint takewhile {A} (f : A -> bool) (l : list A) : list A :=
  match l with
  | [] => []
  | x :: l' => if f x then x :: takewhile f l' else []
  end.

(** [s.lstrip()], [s.rstrip()] and [s.strip()]. *)
Definition lstrip (s : str) : str := dropwhile isspace s.
Definition rstrip (s : str) : str := rev (dropwhile isspace (rev s)).
Definition strip (s : str) : str := rstrip (lstrip s).

(** [s.startswith(p)]. *)
Fixpoint startswith (p s : str) : bool :=
  match p, s with
  | [], _ => true
  | a :: p', b :: s' => chr_eqb a b && startswith p' s'
  | _ :: _, [] => false
  end.

(** [c in s] for a one-character [c]. *)
Definition contains (c : ascii) (s : str) : bool := existsb (chr_eqb c) s.

(** Puts a character in front of the first piece of a non-empty split. *)
Definition cons_first (c : ascii) (parts : list str) : list str :=
  match parts with
  | [] => [[c]]
  | w :: ws => (c :: w) :: ws
  end.

(** [s.split(sep)] for a one-character separator: every occurrence of the
    separator splits, and empty pieces are kept. *)
Fixpoint split (sep : ascii) (s : str) : list str :=
  match s with
  | [] => [[]]
  | c :: s' =>
      if chr_eqb c sep then [] :: split sep s'
      else cons_first c (split sep s')
  end.

(** [s.splitlines()]: a CR LF pair is one boundary, and a final boundary
    opens no empty last line. *)
Fixpoint splitlines (s : str) : list str :=
  match s with
  | [] => []
  | c :: s' =>
      if is_linebreak c then
        [] :: (if chr_eqb c CR then
                 match s' with
                 | d :: s'' => if chr_eqb d LF then splitlines s''
                               else splitlines s'
                 | [] => []
                 end
               else splitlines s')
      else cons_first c (splitlines s')
  end.

(** Universal newlines, applied when a text file is read: CR LF and a lone
    CR both become LF. *)
Fixpoint universal_newlines (s : str) : str :=
  match s with
  | [] => []
  | c :: s' =>
      if chr_eqb c CR then
        LF :: match s' with
              | d :: s'' => if chr_eqb d LF then universal_newlines s''
                            else universal_newlines s'
              | [] => []
              end
      else c :: universal_newlines s'
  end.

(** [sep.join(l)]. *)
Fixpoint join (sep : str) (l : list str) : str :=
  match l with
  | [] => []
  | x :: l' =>
      match l' with
      | [] => x
      | _ :: _ => x ++ sep ++ join sep l'
      end
  end.

(** [template % arg] for a template whose only conversion is one [%s]. *)
Fixpoint percent_s (template arg : str) : str :=
  match template with
  | [] => []
  | c :: t =>
      if chr_eqb c "%"%char then
        match t with
        | d :: t' => if chr_eqb d "s"%char then arg ++ t'
                     else c :: percent_s t arg
        | [] => [c]
        end
      else c :: percent_s t arg
  end.

(** Truth value of a string and of a list. *)
Definition truthy {A} (l : list A) : bool :=
  match l with [] => false | _ :: _ => true end.

(** ** Regular expressions of the [re] module

    Only the constructs the script's pattern uses, closed under
    derivatives. *)

Inductive regex : Type :=
  | Void                          (* matches nothing *)
  | Eps                           (* the empty string *)
  | Chr (c : ascii)               (* a literal character *)
  | Digit                         (* \d *)
  | Dot                           (* . : any character but a newline *)
  | Cat (r1 r2 : regex)
  | Alt (r1 r2 : regex)
  | Star (r : regex)
  | Plus (r : regex).             (* r+ *)

(** The strings of a pattern. *)
Inductive matches : regex -> str -> Prop :=
  | m_eps : matches Eps []
  | m_chr c : matches (Chr c) [c]
  | m_digit c : isdigit c = true -> matches Digit [c]
  | m_dot c : chr_eqb c LF = false -> matches Dot [c]
  | m_cat r1 r2 s1 s2 :
      matches r1 s1 -> matches r2 s2 -> matches (Cat r1 r2) (s1 ++ s2)
  | m_alt_l r1 r2 s : matches r1 s -> matches (Alt r1 r2) s
  | m_alt_r r1 r2 s : matches r2 s -> matches (Alt r1 r2) s
  | m_star_nil r : matches (Star r) []
  | m_star_app r s1 s2 :
      matches r s1 -> matches (Star r) s2 -> matches (Star r) (s1 ++ s2)
  | m_plus r s1 s2 :
      matches r s1 -> matches (Star r) s2 -> matches (Plus r) (s1 ++ s2).

Fixpoint nullable (r : regex) : bool :=
  match r with
  | Void | Chr _ | Digit | Dot => false
  | Eps | Star _ => true
  | Cat r1 r2 => nullable r1 && nullable r2
  | Alt r1 r2 => nullable r1 || nullable r2
  | Plus r => nullable r
  end.

Fixpoint deriv (c : ascii) (r : regex) : regex :=
  match r with
  | Void | Eps => Void
  | Chr a => if chr_eqb a c then Eps else Void
  | Digit => if isdigit c then Eps else Void
  | Dot => if chr_eqb c LF then Void else Eps
  | Cat r1 r2 =>
      if nullable r1 then Alt (Cat (deriv c r1) r2) (deriv c r2)
      else Cat (deriv c r1) r2
  | Alt r1 r2 => Alt (deriv c r1) (deriv c r2)
  | Star r => Cat (deriv c r) (Star r)
  | Plus r => Cat (deriv c r) (Star r)
  end.

(** [re.match(r, s)] as a truth value: some prefix of [s] is a string of
    [r]. *)
Fixpoint re_match (r : regex) (s : str) : bool :=
  nullable r ||
  match s with
  | [] => false
  | c :: s' => re_match (deriv c r) s'
  end.

(** ** Exceptions and effects *)

Inductive exn : Type :=
  | AssertionError (msg : str)
  | RuntimeError (msg : str)
  | FileNotFoundError (path : str)
  | IndexError
  | KeyError (key : str).

(** What a run can change: the files, the warnings issued through
    [warnings.warn] and the lines printed. *)
Record state : Type := mkState {
  files : gmap str str;
  warned : list str;
  printed : list str
}.

(** What a run only reads: the working directory, the absolute directory
    of the script ([os.path.abspath(os.path.dirname(__file__))]), whether
    [.git] is a directory of the working directory, and the return code and
    decoded output of [git describe --tags --abbrev=0]. *)
Record env : Type := mkEnv {
  cwd : str;
  script_dir : str;
  isdir_git : bool;
  git_returncode : Z;
  git_stdout : str
}.

Definition M (A : Type) : Type := state -> (exn + A) * state.

Definition ret {A} (a : A) : M A := fun st => (inr a, st).
Definition raise {A} (e : exn) : M A := fun st => (inl e, st).
Definition bind {A B} (k : A -> M B) (m : M A) : M B :=
  fun st =>
    match m st with
    | (inl e, st') => (inl e, st')
    | (inr a, st') => k a st'
    end.

#[global] Instance M_ret : MRet M := @ret.
#[global] Instance M_bind : MBind M := @bind.

(** A value or a raised exception, without other effects. *)
Definition lift {A} (r : exn + A) : M A := fun st => (r, st).

(** [assert cond, msg]. *)
Definition assert (cond : bool) (msg : str) : M unit :=
  if cond then ret tt else raise (AssertionError msg).

Definition warn (msg : str) : M unit :=
  fun st => (inr tt, mkState (files st) (warned st ++ [msg]) (printed st)).

Definition print (line : str) : M unit :=
  fun st => (inr tt, mkState (files st) (warned st) (printed st ++ [line])).

(** [os.path.join(a, b)] on a POSIX host. *)
Definition os_path_join (a b : str) : str :=
  if startswith (py "/") b then b
  else match last a with
       | None => b
       | Some c => if chr_eqb c "/"%char then a ++ b else a ++ py "/" ++ b
       end.

(** The absolute path a relative path names in working directory [d]. *)
Definition resolve (d p : str) : str := os_path_join d p.

(** [open(path, "w")] followed by [write(text)] and close. *)
Definition write_file (path text : str) : M unit :=
  fun st => (inr tt, mkState (<[path := text]> (files st)) (warned st) (printed st)).

(** [open(path, "r")] followed by [read()]. *)
Definition read_file (path : str) : M str :=
  fun st =>
    match files st !! path with
    | Some text => (inr (universal_newlines text), st)
    | None => (inl (FileNotFoundError path), st)
    end.

(** [os.path.isfile(path)]. *)
Definition isfile (path : str) : M bool :=
  fun st => (inr (bool_decide (is_Some (files st !! path))), st).

(** ** [class VersionHelper] *)

Module VersionHelper.

Definition __VERSION_FP : str := py "pecos/_version.py".

Definition __VERSION_PY : str :=
  [LF]
  ++ py "# This file is automatically generated from Git version tag by running setup." ++ [LF]
  ++ py "# Only distribution/installed packages contain this file." ++ [LF]
  ++ [LF]
  ++ py "__version__ = " ++ [DQUOTE] ++ py "%s" ++ [DQUOTE] ++ [LF].

(** The pattern [r'v\d+.\d+.\d+']: the two dots are not escaped. *)
Definition tag_pattern : regex :=
  Cat (Chr "v") (Cat (Plus Digit) (Cat Dot (Cat (Plus Digit) (Cat Dot (Plus Digit))))).

Definition dummy_warning : str :=
  py "Unable to run retrieve version from git info, "
  ++ py "maybe not in a Git repository, or tag info missing? "
  ++ py "Will write dummy version 0.0.0 to " ++ __VERSION_FP.

(** The version the tag information gives: the first half of
    [__update_version_py], up to the warning. *)
Definition version_from_git (e : env) : M str :=
  if isdir_git e then
    if (git_returncode e =? 0)%Z then
      let git_tag := git_stdout e in
      assert (re_match tag_pattern git_tag)
             (py "We use tags like v0.1.0, but got " ++ git_tag);;
      mret (strip (drop (length (py "v")) git_tag))
    else mret (py "0.0.0")
  else mret (py "0.0.0").

Definition __update_version_py (e : env) : M unit :=
  ver ← version_from_git e;
  (if bool_decide (ver = py "0.0.0") then warn dummy_warning else mret tt);;
  write_file (resolve (cwd e) __VERSION_FP) (percent_s __VERSION_PY ver);;
  b ← isfile (resolve (cwd e) __VERSION_FP);
  assert b (__VERSION_FP ++ py " does not exist.");;
  print (py "Set version to " ++ ver).

Definition __read_version_file (e : env) : M str :=
  let here := script_dir e in
  read_file (os_path_join here __VERSION_FP).

(** The [for ... else] loop of [get_version] over the lines read: the
    first line that starts with [__version__] decides. *)
Fixpoint scan_lines (lines : list str) : exn + str :=
  match lines with
  | [] => inl (RuntimeError (py "Unable to find version string."))
  | line :: rest =>
      if startswith (py "__version__") line then
        let delim := if contains DQUOTE line then DQUOTE else SQUOTE in
        match split delim line !! 1%nat with
        | Some v => inr v
        | None => inl IndexError
        end
      else scan_lines rest
  end.

Definition get_version (e : env) : M str :=
  __update_version_py e;;
  text ← __read_version_file e;
  lift (scan_lines (splitlines text)).

End VersionHelper.

(** ** [class BlasHelper] *)

Module BlasHelper.

Definition no_library : str :=
  py "No BLAS/LAPACK library is found, need to install BLAS.".
Definition no_library_dir : str :=
  py "No BLAS/LAPACK library directory is found, need to install BLAS.".

(** [blas_info] is what [nps.get_info('lapack_opt')] returned: a
    dictionary, empty when nothing was found. *)
Definition get_blas_lib_dir (blas_info : gmap str (list str))
  : exn + (list str * list str) :=
  if bool_decide (blas_info = ∅) then inl (AssertionError no_library)
  else
    match blas_info !! py "libraries" with
    | None => inl (KeyError (py "libraries"))
    | Some blas_lib =>
        match blas_info !! py "library_dirs" with
        | None => inl (KeyError (py "library_dirs"))
        | Some blas_dir =>
            if negb (truthy blas_lib) then inl (AssertionError no_library)
            else if negb (truthy blas_dir)
                 then inl (AssertionError no_library_dir)
                 else inr (blas_lib, blas_dir)
        end
    end.

End BlasHelper.

(** ** The extension module *)

(** [os.environ.get('PECOS_MANUAL_COMPILE_ARGS', default=None)] and the
    [if manual_compile_args:] that follows it. *)
Definition manual_compile_args (environ : gmap str str) : list str :=
  match environ !! py "PECOS_MANUAL_COMPILE_ARGS" with
  | Some value => if truthy value then split ","%char value else []
  | None => []
  end.

(** The arguments of [setuptools.Extension] the script passes. *)
Record Extension : Type := mkExtension {
  name : str;
  sources : list str;
  include_dirs : list str;
  libraries : list str;
  library_dirs : list str;
  extra_compile_args : list str;
  extra_link_args : list str
}.

Definition ext_module (blas_lib blas_dir manual_compile_args : list str)
  : Extension :=
  {| name := py "pecos.core.libpecos_float32";
     sources := [py "pecos/core/libpecos.cpp"];
     include_dirs := [py "pecos/core"; py "/usr/include/"; py "/usr/local/include"];
     libraries := [py "gomp"; py "gcc"] ++ blas_lib;
     library_dirs := blas_dir;
     extra_compile_args :=
       [py "-fopenmp"; py "-O3"; py "-std=c++14"] ++ manual_compile_args;
     extra_link_args :=
       [py "-Wl,--no-as-needed"; py "-Wl,-rpath," ++ join (py ":") blas_dir] |}.

(** Lines 127 to 147 of the script: locate BLAS, read the environment,
    build the descriptor. *)
Definition script_ext_module (blas_info : gmap str (list str))
    (environ : gmap str str) : exn + Extension :=
  match BlasHelper.get_blas_lib_dir blas_info with
  | inl e => inl e
  | inr (blas_lib, blas_dir) =>
      inr (ext_module blas_lib blas_dir (manual_compile_args environ))
  end.

(** ** Vocabulary of the statements *)

(** A non-empty string of decimal digits. *)
Definition is_int (s : str) : bool := truthy s && forallb isdigit s.

(** A string of white space only. *)
Definition all_space (s : str) : bool := forallb isspace s.

(** The version [<major>.<minor>.<patch>] and its tag
    [v<major>.<minor>.<patch>]. *)
Definition version_text (major minor patch : str) : str :=
  major ++ py "." ++ minor ++ py "." ++ patch.
Definition tag_text (major minor patch : str) : str :=
  py "v" ++ version_text major minor patch.

(** A text with no double quote and no line boundary. *)
Definition plain (s : str) : bool :=
  forallb (fun c => negb (chr_eqb c DQUOTE) && negb (is_linebreak c)) s.

(** The text of a string up to its first line boundary. *)
Definition first_line (s : str) : str :=
  takewhile (fun c => negb (is_linebreak c)) s.

(** The text of a string up to its first double quote or line boundary:
    what a reader of the generated file recovers of a version. *)
Definition upto_quote (s : str) : str :=
  takewhile (fun c => negb (chr_eqb c DQUOTE) && negb (is_linebreak c)) s.

(** The line of the generated file that carries the version. *)
Definition version_line (ver : str) : str :=
  py "__version__ = " ++ [DQUOTE] ++ ver ++ [DQUOTE].

(** The file the writer and the reader of the version use. *)
Definition write_path (e : env) : str :=
  resolve (cwd e) VersionHelper.__VERSION_FP.
Definition read_path (e : env) : str :=
  os_path_join (script_dir e) VersionHelper.__VERSION_FP.

(** The generated file up to the version: [__VERSION_PY] up to its [%s]. *)
Definition version_file_header : str :=
  [LF]
  ++ py "# This file is automatically generated from Git version tag by running setup." ++ [LF]
  ++ py "# Only distribution/installed packages contain this file." ++ [LF]
  ++ [LF]
  ++ py "__version__ = " ++ [DQUOTE].

(** The state a successful [__update_version_py] leaves when the version
    it determined is [ver]. *)
Definition after_update (e : env) (ver : str) (st : state) : state :=
  mkState
    (<[write_path e := percent_s VersionHelper.__VERSION_PY ver]> (files st))
    (warned st ++
       (if bool_decide (ver = py "0.0.0")
        then [VersionHelper.dummy_warning] else []))
    (printed st ++ [py "Set version to " ++ ver]).

(** What the reader of [get_version] makes of the text of a file. *)
Definition parse_version (text : str) : exn + str :=
  VersionHelper.scan_lines (splitlines (universal_newlines text)).

(** The pattern the specification gives for a tag, [v\d+\.\d+\.\d+], with
    literal dots. *)
Definition spec_tag_pattern : regex :=
  Cat (Chr "v")
      (Cat (Plus Digit)
           (Cat (Chr ".") (Cat (Plus Digit) (Cat (Chr ".") (Plus Digit))))).

(** The name of the environment variable of the extra compile flags. *)
Definition PECOS_MANUAL_COMPILE_ARGS : str := py "PECOS_MANUAL_COMPILE_ARGS".

(** The three fixed compile flags. *)
Definition fixed_compile_args : list str :=
  [py "-fopenmp"; py "-O3"; py "-std=c++14"].

(** ** Sample runs *)

Module Sample.

Definition no_effects (fs : gmap str str) : state := mkState fs [] [].

(** A checkout in [/src/pecos] tagged [v1.2.3], built from inside it. *)
Definition in_checkout : env :=
  mkEnv (py "/src/pecos") (py "/src/pecos") true 0 (py "v1.2.3" ++ [LF]).

(** The same checkout, the script being run from [/tmp/build], where a
    [.git] directory with the same tag exists as well. *)
Definition elsewhere : env :=
  mkEnv (py "/tmp/build") (py "/src/pecos") true 0 (py "v1.2.3" ++ [LF]).

(** No [.git] directory in the working directory [/tmp/build]. *)
Definition elsewhere_no_git : env :=
  mkEnv (py "/tmp/build") (py "/src/pecos") false 0 [].

(** No [.git] directory, built from inside the source directory. *)
Definition unpacked : env :=
  mkEnv (py "/src/pecos") (py "/src/pecos") false 0 [].

(** A tag with letters where the dots belong. *)
Definition letters_for_dots : env :=
  mkEnv (py "/src/pecos") (py "/src/pecos") true 0 (py "v1x2y3" ++ [LF]).

(** The tag [release-1]. *)
Definition release_1 : env :=
  mkEnv (py "/src/pecos") (py "/src/pecos") true 0 (py "release-1" ++ [LF]).

(** A tag that goes on after the version with a double quote. *)
Definition quote_in_tag : env :=
  mkEnv (py "/src/pecos") (py "/src/pecos") true 0
        (py "v1.2.3" ++ [DQUOTE] ++ py "x" ++ [LF]).

(** A file store in which an earlier build left version 0.9.0 in the
    source directory. *)
Definition earlier_build : gmap str str :=
  {[ py "/src/pecos/pecos/_version.py"
     := percent_s VersionHelper.__VERSION_PY (py "0.9.0") ]}.

Definition openblas : gmap str (list str) :=
  <[py "libraries" := [py "openblas"]]>
    (<[py "library_dirs" := [py "/usr/lib"]]> ∅).

Definition extra_flags_set : gmap str str :=
  {[ PECOS_MANUAL_COMPILE_ARGS := py "-Werror,-Wall" ]}.

Definition extra_flags_empty : gmap str str :=
  {[ PECOS_MANUAL_COMPILE_ARGS := [] ]}.

End Sample.

(** [needle in haystack] for strings. *)
Fixpoint substring (needle haystack : str) : bool :=
  startswith needle haystack ||
  match haystack with
  | [] => false
  | _ :: h => substring needle h
  end.

(** ** The script as a whole *)

Definition numpy_requires : list str :=
  [py "numpy<1.20.0; python_version<" ++ [DQUOTE] ++ py "3.7" ++ [DQUOTE];
   py "numpy>=1.19.5; python_version>=" ++ [DQUOTE] ++ py "3.7" ++ [DQUOTE]].

Definition setup_requires : list str :=
  numpy_requires ++ [py "pytest-runner"; py "sphinx_rtd_theme"].

Definition install_requires : list str :=
  numpy_requires
  ++ [py "scipy>=1.4.1";
      py "scikit-learn>=0.24.1";
      py "torch>=1.8.0";
      py "sentencepiece>=0.1.86,!=0.1.92";
      py "transformers>=4.1.1; python_version<" ++ [DQUOTE] ++ py "3.9" ++ [DQUOTE];
      py "transformers>=4.4.2; python_version>=" ++ [DQUOTE] ++ py "3.9" ++ [DQUOTE]].

(** The arguments of [setuptools.setup] that the script computes. *)
Record SetupArguments : Type := mkSetupArguments {
  arg_version : str;
  arg_long_description : str;
  arg_ext_modules : list Extension;
  arg_setup_requires : list str;
  arg_install_requires : list str
}.

(** The module body, lines 104 to 165, up to the call of
    [setuptools.setup]: read [README.md], locate BLAS and build the
    descriptor, then evaluate the arguments of the call, the version among
    them.  [fetch_build_eggs] is taken to return. *)
Definition script (e : env) (blas_info : gmap str (list str))
    (environ : gmap str str) : M SetupArguments :=
  long_description ← read_file (resolve (cwd e) (py "README.md"));
  ext ← lift (script_ext_module blas_info environ);
  version ← VersionHelper.get_version e;
  mret {| arg_version := version;
          arg_long_description := long_description;
          arg_ext_modules := [ext];
          arg_setup_requires := setup_requires;
          arg_install_requires := install_requires |}.

(** A directory path that is the root or does not end with a slash. *)
Definition no_trailing_slash (d : str) : bool :=
  bool_decide (d = py "/")
  || match last d with
     | Some c => negb (chr_eqb c "/"%char)
     | None => false
     end.

(** The number of occurrences of a character in a string. *)
Fixpoint count_chr (c : ascii) (s : str) : nat :=
  match s with
  | [] => 0
  | a :: s' => (if chr_eqb a c then 1 else 0) + count_chr c s'
  end.

(** * Properties *)

(** ** Characters *)

Lemma chr_eqb_eq (a b : ascii) : chr_eqb a b = true <-> a = b.
Proof. apply Ascii.eqb_eq. Qed.

Lemma chr_eqb_refl (a : ascii) : chr_eqb a a = true.
Proof. apply Ascii.eqb_refl. Qed.

Lemma chr_eqb_neq (a b : ascii) : chr_eqb a b = false <-> a <> b.
Proof. apply Ascii.eqb_neq. Qed.

Ltac by_cases_on_char c :=
  destruct c as [[] [] [] [] [] [] [] []]; vm_compute; congruence.

Lemma digit_not_space c : isdigit c = true -> isspace c = false.
Proof. by_cases_on_char c. Qed.

Lemma digit_not_linebreak c : isdigit c = true -> is_linebreak c = false.
Proof. by_cases_on_char c. Qed.

Lemma digit_not_quote c : isdigit c = true -> chr_eqb c DQUOTE = false.
Proof. by_cases_on_char c. Qed.

Lemma CR_linebreak c : chr_eqb c CR = true -> is_linebreak c = true.
Proof. by_cases_on_char c. Qed.

(** ** The pattern matcher decides prefix matching *)

Section Regex.

Lemma matches_nil_nullable r s : matches r s -> s = [] -> nullable r = true.
Proof.
  induction 1; intros Hs; simpl; try discriminate; auto.
  - apply app_eq_nil in Hs as [-> ->]. rewrite IHmatches1, IHmatches2; auto.
  - rewrite IHmatches; auto.
  - rewrite IHmatches, orb_true_r; auto.
  - apply app_eq_nil in Hs as [-> _]. auto.
Qed.

Lemma nullable_matches_nil r : nullable r = true -> matches r [].
Proof.
  induction r; simpl; intros Hn; try discriminate.
  - constructor.
  - apply andb_true_iff in Hn as [H1 H2].
    change (@nil ascii) with (@nil ascii ++ []). constructor; auto.
  - apply orb_true_iff in Hn as [H1 | H2];
      [apply m_alt_l | apply m_alt_r]; auto.
  - constructor.
  - change (@nil ascii) with (@nil ascii ++ []).
    constructor; [auto | constructor].
Qed.

Lemma star_cons_inv r c s :
  matches (Star r) (c :: s) ->
  exists s1 s2, s = s1 ++ s2 /\ matches r (c :: s1) /\ matches (Star r) s2.
Proof.
  intros H. remember (Star r) as r' eqn:Er. remember (c :: s) as t eqn:Et.
  induction H; try discriminate.
  injection Er as ->. destruct s1 as [|a s1]; simpl in Et.
  - apply IHmatches2; auto.
  - injection Et as -> <-. exists s1, s2. auto.
Qed.

Lemma cat_inv r1 r2 s :
  matches (Cat r1 r2) s ->
  exists s1 s2, s = s1 ++ s2 /\ matches r1 s1 /\ matches r2 s2.
Proof. inversion 1; subst; eauto. Qed.

Lemma plus_inv r s :
  matches (Plus r) s ->
  exists s1 s2, s = s1 ++ s2 /\ matches r s1 /\ matches (Star r) s2.
Proof. inversion 1; subst; eauto. Qed.

Lemma deriv_sound c r : forall s, matches (deriv c r) s -> matches r (c :: s).
Proof.
  induction r; simpl; intros s H.
  - inversion H.
  - inversion H.
  - destruct (chr_eqb c0 c) eqn:E; inversion H; subst.
    apply chr_eqb_eq in E as ->. constructor.
  - destruct (isdigit c) eqn:E; inversion H; subst. constructor; auto.
  - destruct (chr_eqb c LF) eqn:E; inversion H; subst. constructor; auto.
  - assert (Hcat : forall t, matches (Cat (deriv c r1) r2) t ->
                             matches (Cat r1 r2) (c :: t)).
    { intros t Ht. inversion Ht; subst.
      change (c :: s1 ++ s2) with ((c :: s1) ++ s2). constructor; auto. }
    destruct (nullable r1) eqn:E; [|auto].
    inversion H; subst; [auto|].
    change (c :: s) with ([] ++ c :: s).
    constructor; [apply nullable_matches_nil|]; auto.
  - inversion H; subst; [apply m_alt_l | apply m_alt_r]; auto.
  - inversion H; subst.
    change (c :: s1 ++ s2) with ((c :: s1) ++ s2). constructor; auto.
  - inversion H; subst.
    change (c :: s1 ++ s2) with ((c :: s1) ++ s2). constructor; auto.
Qed.

Lemma deriv_complete c r : forall s, matches r (c :: s) -> matches (deriv c r) s.
Proof.
  induction r; simpl; intros s H.
  - inversion H.
  - inversion H.
  - inversion H; subst. rewrite chr_eqb_refl. constructor.
  - inversion H as [| |? Hd| | | | | | |]; subst. rewrite Hd. constructor.
  - inversion H as [| | |? Hd| | | | | |]; subst. rewrite Hd. constructor.
  - apply cat_inv in H as (s1 & s2 & Es & H1 & H2). symmetry in Es.
    destruct s1 as [|a s1]; simpl in Es; subst.
    + rewrite (matches_nil_nullable _ _ H1 eq_refl).
      apply m_alt_r; auto.
    + injection Es as -> <-.
      assert (matches (Cat (deriv c r1) r2) (s1 ++ s2))
        by (constructor; auto).
      destruct (nullable r1); [apply m_alt_l|]; auto.
  - inversion H; subst; [apply m_alt_l | apply m_alt_r]; auto.
  - apply star_cons_inv in H as (s1 & s2 & -> & H1 & H2).
    constructor; auto.
  - apply plus_inv in H as (s1 & s2 & Es & H1 & H2). symmetry in Es.
    destruct s1 as [|a s1]; simpl in Es; subst.
    + apply star_cons_inv in H2 as (t1 & t2 & -> & Ht1 & Ht2).
      constructor; auto.
    + injection Es as -> <-. constructor; auto.
Qed.

Lemma re_match_true r : forall s,
  re_match r s = true <-> exists p q, s = p ++ q /\ matches r p.
Proof.
  intros s; revert r. induction s as [|c s IH]; intros r; simpl.
  - rewrite orb_false_r. split.
    + intros Hn. exists [], []. split; [auto | apply nullable_matches_nil; auto].
    + intros (p & q & Hs & Hp). symmetry in Hs.
      apply app_eq_nil in Hs as [-> _].
      apply (matches_nil_nullable _ _ Hp eq_refl).
  - rewrite orb_true_iff, IH. split.
    + intros [Hn | (p & q & -> & Hp)].
      * exists [], (c :: s). split; [auto | apply nullable_matches_nil; auto].
      * exists (c :: p), q. split; [auto | apply deriv_sound; auto].
    + intros (p & q & Hs & Hp). destruct p as [|a p]; simpl in Hs.
      * left. apply (matches_nil_nullable _ _ Hp eq_refl).
      * injection Hs as <- ->. right. exists p, q.
        split; [auto | apply deriv_complete; auto].
Qed.

Lemma digits_star s : forallb isdigit s = true -> matches (Star Digit) s.
Proof.
  induction s as [|c s IH]; simpl; intros H; [constructor|].
  apply andb_true_iff in H as [Hc Hs].
  change (c :: s) with ([c] ++ s). constructor; [constructor|]; auto.
Qed.

Lemma int_plus_digit s : is_int s = true -> matches (Plus Digit) s.
Proof.
  unfold is_int. destruct s as [|c s]; simpl; [discriminate|].
  intros H. apply andb_true_iff in H as [Hc Hs].
  change (c :: s) with ([c] ++ s).
  constructor; [constructor | apply digits_star]; auto.
Qed.

End Regex.

(** ** Text operations *)

Section Text.

Lemma dropwhile_app_all {A} (f : A -> bool) l1 l2 :
  forallb f l1 = true -> dropwhile f (l1 ++ l2) = dropwhile f l2.
Proof.
  induction l1 as [|x l1 IH]; simpl; [auto|].
  intros H. apply andb_true_iff in H as [-> H]. auto.
Qed.

Lemma forallb_rev {A} (f : A -> bool) l :
  forallb f l = true -> forallb f (rev l) = true.
Proof.
  rewrite !forallb_forall. intros H x Hx. apply H, in_rev, Hx.
Qed.

Lemma takewhile_app_all {A} (f : A -> bool) l1 l2 :
  forallb f l1 = true -> takewhile f (l1 ++ l2) = l1 ++ takewhile f l2.
Proof.
  induction l1 as [|x l1 IH]; simpl; [auto|].
  intros H. apply andb_true_iff in H as [-> H]. rewrite IH; auto.
Qed.

Lemma rstrip_app_space s ws :
  all_space ws = true -> rstrip (s ++ ws) = rstrip s.
Proof.
  intros H. unfold rstrip. rewrite rev_app_distr, dropwhile_app_all; auto.
  apply forallb_rev, H.
Qed.

Lemma rstrip_id s :
  (forall c, last s = Some c -> isspace c = false) -> rstrip s = s.
Proof.
  intros H. unfold rstrip. destruct (rev s) as [|d r] eqn:E.
  - apply (f_equal (@rev ascii)) in E. rewrite rev_involutive in E. auto.
  - assert (Es : s = rev r ++ [d])
      by (rewrite <- (rev_involutive s), E; reflexivity).
    simpl. rewrite (H d); [simpl; symmetry; exact Es|].
    rewrite Es. apply last_snoc.
Qed.

Lemma lstrip_id s :
  (forall c, head s = Some c -> isspace c = false) -> lstrip s = s.
Proof.
  destruct s as [|c s]; [reflexivity|]. intros H.
  unfold lstrip. simpl. rewrite (H c); reflexivity.
Qed.

(** Stripping removes trailing white space and nothing else from a text
    that neither starts nor ends with white space. *)
Lemma strip_app_space s ws :
  (forall c, head s = Some c -> isspace c = false) ->
  (forall c, last s = Some c -> isspace c = false) ->
  all_space ws = true ->
  strip (s ++ ws) = s.
Proof.
  intros Hh Hl Hws. unfold strip. destruct s as [|c s].
  - simpl. unfold lstrip.
    rewrite <- (app_nil_r ws), dropwhile_app_all; auto.
  - rewrite lstrip_id.
    + rewrite rstrip_app_space; auto. apply rstrip_id; auto.
    + simpl. intros c' [= <-]. apply Hh. reflexivity.
Qed.

Lemma universal_newlines_cons c s :
  chr_eqb c CR = false ->
  universal_newlines (c :: s) = c :: universal_newlines s.
Proof. simpl. intros ->. reflexivity. Qed.

Lemma universal_newlines_app h s :
  forallb (fun c => negb (chr_eqb c CR)) h = true ->
  universal_newlines (h ++ s) = h ++ universal_newlines s.
Proof.
  induction h as [|c h IH]; [reflexivity|].
  simpl forallb. intros H. apply andb_true_iff in H as [Hc Hh].
  apply negb_true_iff in Hc.
  change ((c :: h) ++ s) with (c :: (h ++ s)).
  rewrite universal_newlines_cons, IH; auto.
Qed.

Lemma splitlines_cons c s :
  is_linebreak c = false ->
  splitlines (c :: s) = cons_first c (splitlines s).
Proof. simpl. intros ->. reflexivity. Qed.

Lemma splitlines_line l rest :
  forallb (fun c => negb (is_linebreak c)) l = true ->
  splitlines (l ++ LF :: rest) = l :: splitlines rest.
Proof.
  induction l as [|c l IH]; [reflexivity|].
  simpl forallb. intros H. apply andb_true_iff in H as [Hc Hl].
  apply negb_true_iff in Hc.
  change ((c :: l) ++ LF :: rest) with (c :: (l ++ LF :: rest)).
  rewrite splitlines_cons, IH; auto.
Qed.

Lemma splitlines_head s :
  s <> [] -> exists rest, splitlines s = first_line s :: rest.
Proof.
  induction s as [|c s IH]; [congruence|]. intros _.
  unfold first_line. destruct (is_linebreak c) eqn:Hc.
  - simpl. rewrite Hc. simpl. eauto.
  - rewrite splitlines_cons by auto. simpl. rewrite Hc. simpl.
    destruct s as [|d s]; [simpl; eauto|].
    destruct IH as [rest ->]; [congruence|]. simpl. eauto.
Qed.

Lemma first_line_universal s :
  first_line (universal_newlines s) = first_line s.
Proof.
  unfold first_line. induction s as [|c s IH]; [reflexivity|].
  destruct (chr_eqb c CR) eqn:Hc.
  - simpl. rewrite Hc, (CR_linebreak c Hc). reflexivity.
  - rewrite universal_newlines_cons by auto. simpl. rewrite IH. reflexivity.
Qed.

Lemma split_cons c sep s :
  chr_eqb c sep = false -> split sep (c :: s) = cons_first c (split sep s).
Proof. simpl. intros ->. reflexivity. Qed.

Lemma split_app_sep sep a t :
  forallb (fun c => negb (chr_eqb c sep)) a = true ->
  split sep (a ++ sep :: t) = a :: split sep t.
Proof.
  induction a as [|c a IH].
  - intros _. simpl. rewrite chr_eqb_refl. reflexivity.
  - simpl forallb. intros H. apply andb_true_iff in H as [Hc Ha].
    apply negb_true_iff in Hc.
    change ((c :: a) ++ sep :: t) with (c :: (a ++ sep :: t)).
    rewrite split_cons, IH; auto.
Qed.

Lemma split_head sep t :
  exists rest,
    split sep t = takewhile (fun c => negb (chr_eqb c sep)) t :: rest.
Proof.
  induction t as [|c t [rest IH]]; [simpl; eauto|].
  simpl. destruct (chr_eqb c sep); simpl; [eauto|].
  rewrite IH. simpl. eauto.
Qed.

Lemma split_no_sep sep s :
  forallb (fun c => negb (chr_eqb c sep)) s = true -> split sep s = [s].
Proof.
  induction s as [|c s IH]; [reflexivity|].
  simpl forallb. intros H. apply andb_true_iff in H as [Hc Hs].
  apply negb_true_iff in Hc. rewrite split_cons, IH; auto.
Qed.

(** What lies between the opening quote of the version line and the next
    quote or line boundary. *)
Lemma quoted_value ver :
  takewhile (fun c => negb (chr_eqb c DQUOTE))
            (first_line (ver ++ [DQUOTE; LF]))
  = upto_quote ver.
Proof.
  unfold first_line, upto_quote. induction ver as [|c ver IH].
  - reflexivity.
  - simpl. destruct (is_linebreak c); simpl.
    + rewrite andb_false_r. reflexivity.
    + rewrite andb_true_r. destruct (chr_eqb c DQUOTE); simpl; [|rewrite IH];
        reflexivity.
Qed.

Lemma upto_quote_id ver :
  forallb (fun c => negb (chr_eqb c DQUOTE) && negb (is_linebreak c)) ver
  = true ->
  upto_quote ver = ver.
Proof.
  intros H. unfold upto_quote.
  rewrite <- (app_nil_r ver) at 1. rewrite takewhile_app_all by auto.
  apply app_nil_r.
Qed.

Lemma join_singleton sep d : join sep [d] = d.
Proof. reflexivity. Qed.

Lemma join_cons sep d d' l :
  join sep (d :: d' :: l) = d ++ sep ++ join sep (d' :: l).
Proof. reflexivity. Qed.

End Text.

(** ** The generated file and the runs of [VersionHelper] *)

Section VersionFile.
Import VersionHelper.

Lemma file_text ver :
  percent_s __VERSION_PY ver = version_file_header ++ ver ++ [DQUOTE; LF].
Proof. reflexivity. Qed.

Lemma scan_lines_skip line rest :
  startswith (py "__version__") line = false ->
  scan_lines (line :: rest) = scan_lines rest.
Proof. simpl. intros ->. reflexivity. Qed.

Lemma scan_lines_quoted line rest v :
  startswith (py "__version__") line = true ->
  contains DQUOTE line = true ->
  split DQUOTE line !! 1%nat = Some v ->
  scan_lines (line :: rest) = inr v.
Proof. simpl. intros -> -> ->. reflexivity. Qed.

Lemma splitlines_header y :
  exists l1 l2,
    splitlines (version_file_header ++ y)
    = [] :: l1 :: l2 :: [] :: splitlines (py "__version__ = " ++ DQUOTE :: y)
    /\ startswith (py "__version__") l1 = false
    /\ startswith (py "__version__") l2 = false.
Proof.
  exists (py "# This file is automatically generated from Git version tag by running setup."),
         (py "# Only distribution/installed packages contain this file.").
  split; [|split; reflexivity].
  change (version_file_header ++ y) with
    ([] ++ LF :: (py "# This file is automatically generated from Git version tag by running setup."
      ++ LF :: (py "# Only distribution/installed packages contain this file."
      ++ LF :: ([] ++ LF :: (py "__version__ = " ++ DQUOTE :: y))))).
  rewrite !splitlines_line by reflexivity. reflexivity.
Qed.

Lemma read_back ver : parse_version (percent_s __VERSION_PY ver) = inr (upto_quote ver).
Proof.
  unfold parse_version.
  rewrite file_text, universal_newlines_app by reflexivity.
  destruct (splitlines_header (universal_newlines (ver ++ [DQUOTE; LF])))
    as (l1 & l2 & -> & H1 & H2).
  rewrite !scan_lines_skip by auto.
  destruct (splitlines_head
              (py "__version__ = " ++ DQUOTE :: universal_newlines (ver ++ [DQUOTE; LF])))
    as [rest ->]; [discriminate|].
  unfold first_line at 1.
  change (py "__version__ = " ++ DQUOTE :: ?y)
    with ((py "__version__ = " ++ [DQUOTE]) ++ y).
  rewrite takewhile_app_all by reflexivity.
  fold (first_line (universal_newlines (ver ++ [DQUOTE; LF]))).
  rewrite first_line_universal.
  apply scan_lines_quoted; [reflexivity | reflexivity |].
  rewrite <- app_assoc. simpl ([DQUOTE] ++ _).
  rewrite split_app_sep by reflexivity.
  destruct (split_head DQUOTE (first_line (ver ++ [DQUOTE; LF]))) as [r ->].
  simpl. rewrite quoted_value. reflexivity.
Qed.

Lemma version_line_in_file ver :
  forallb (fun c => negb (is_linebreak c)) ver = true ->
  In (version_line ver) (splitlines (percent_s __VERSION_PY ver)).
Proof.
  intros Hv. rewrite file_text.
  destruct (splitlines_header (ver ++ [DQUOTE; LF])) as (l1 & l2 & -> & _).
  do 4 right.
  change (py "__version__ = " ++ DQUOTE :: ver ++ [DQUOTE; LF])
    with (py "__version__ = " ++ [DQUOTE] ++ ver ++ [DQUOTE] ++ LF :: []).
  rewrite !app_assoc. rewrite splitlines_line.
  - left. unfold version_line. rewrite !app_assoc. reflexivity.
  - rewrite !forallb_app, Hv. reflexivity.
Qed.

Lemma version_from_git_eval e st :
  version_from_git e st =
  if isdir_git e && (git_returncode e =? 0)%Z then
    if re_match tag_pattern (git_stdout e)
    then (inr (strip (drop 1 (git_stdout e))), st)
    else (inl (AssertionError
                 (py "We use tags like v0.1.0, but got " ++ git_stdout e)), st)
  else (inr (py "0.0.0"), st).
Proof.
  unfold version_from_git.
  destruct (isdir_git e), (git_returncode e =? 0)%Z; simpl; try reflexivity.
  destruct (re_match tag_pattern (git_stdout e)); reflexivity.
Qed.

Lemma bind_ok {A B} (m : M A) (k : A -> M B) st a st' :
  m st = (inr a, st') -> (m ≫= k) st = k a st'.
Proof. unfold mbind, M_bind, bind. intros ->. reflexivity. Qed.

Lemma bind_raise {A B} (m : M A) (k : A -> M B) st x st' :
  m st = (inl x, st') -> (m ≫= k) st = (inl x, st').
Proof. unfold mbind, M_bind, bind. intros ->. reflexivity. Qed.

Lemma warn_step (b : bool) w st :
  (if b then warn w else mret tt) st
  = (inr tt, mkState (files st) (warned st ++ (if b then [w] else []))
                     (printed st)).
Proof.
  destruct st as [f ws ps], b; unfold warn, mret, M_ret, ret;
    cbn [files warned printed]; rewrite ?app_nil_r; reflexivity.
Qed.

Lemma isfile_written p t f w pr :
  isfile p (mkState (<[p := t]> f) w pr)
  = (inr true, mkState (<[p := t]> f) w pr).
Proof.
  unfold isfile. cbn [files]. rewrite lookup_insert_eq.
  rewrite bool_decide_eq_true_2 by eauto. reflexivity.
Qed.

Lemma update_ok e st ver :
  version_from_git e st = (inr ver, st) ->
  __update_version_py e st = (inr tt, after_update e ver st).
Proof.
  intros H. unfold __update_version_py.
  rewrite (bind_ok _ _ _ _ _ H).
  rewrite (bind_ok _ _ _ _ _ (warn_step _ _ _)).
  unfold write_file at 1.
  erewrite bind_ok by reflexivity. cbn [files warned printed].
  rewrite (bind_ok _ _ _ _ _ (isfile_written _ _ _ _ _)).
  unfold assert at 1. erewrite bind_ok by reflexivity.
  reflexivity.
Qed.

Lemma update_raise e st x :
  version_from_git e st = (inl x, st) ->
  __update_version_py e st = (inl x, st).
Proof. intros H. apply bind_raise, H. Qed.

Lemma get_version_ok e st ver :
  version_from_git e st = (inr ver, st) ->
  get_version e st =
  (match files (after_update e ver st) !! read_path e with
   | Some text => parse_version text
   | None => inl (FileNotFoundError (read_path e))
   end, after_update e ver st).
Proof.
  intros H. unfold get_version.
  rewrite (bind_ok _ _ _ _ _ (update_ok _ _ _ H)).
  unfold __read_version_file, read_file. fold (read_path e).
  destruct (files (after_update e ver st) !! read_path e) as [text|] eqn:E.
  - erewrite bind_ok by (rewrite E; reflexivity). reflexivity.
  - erewrite bind_raise by (rewrite E; reflexivity). reflexivity.
Qed.

Lemma get_version_raise e st x :
  version_from_git e st = (inl x, st) ->
  get_version e st = (inl x, st).
Proof. intros H. apply bind_raise, update_raise, H. Qed.

Lemma same_directory e : cwd e = script_dir e -> write_path e = read_path e.
Proof. unfold write_path, read_path, resolve. intros ->. reflexivity. Qed.

Lemma get_version_same_dir e st ver :
  version_from_git e st = (inr ver, st) ->
  write_path e = read_path e ->
  get_version e st = (inr (upto_quote ver), after_update e ver st).
Proof.
  intros H Hp. rewrite (get_version_ok _ _ _ H).
  unfold after_update at 1. cbn [files]. rewrite Hp, lookup_insert_eq.
  rewrite read_back. reflexivity.
Qed.

Lemma get_version_other_dir e st ver :
  version_from_git e st = (inr ver, st) ->
  write_path e <> read_path e ->
  get_version e st =
  (match files st !! read_path e with
   | Some text => parse_version text
   | None => inl (FileNotFoundError (read_path e))
   end, after_update e ver st).
Proof.
  intros H Hp. rewrite (get_version_ok _ _ _ H).
  unfold after_update at 1. cbn [files]. rewrite lookup_insert_ne by auto.
  reflexivity.
Qed.
End VersionFile.

(** ** The version helper *)

Section VersionClaims.
Import VersionHelper.

Lemma is_int_cons s :
  is_int s = true ->
  exists c s', s = c :: s' /\ isdigit c = true /\ forallb isdigit s' = true.
Proof.
  unfold is_int. destruct s as [|c s']; simpl; [discriminate|].
  intros H. apply andb_true_iff in H as [Hc Hs]. eauto.
Qed.

Lemma is_int_digits s : is_int s = true -> forallb isdigit s = true.
Proof. unfold is_int. intros H. apply andb_true_iff in H as [_ H]. exact H. Qed.

Lemma digits_plain s : forallb isdigit s = true -> plain s = true.
Proof.
  unfold plain. rewrite !forallb_forall. intros H c Hc.
  rewrite (digit_not_quote c), (digit_not_linebreak c); auto.
Qed.

Lemma version_text_plain major minor patch :
  is_int major = true -> is_int minor = true -> is_int patch = true ->
  plain (version_text major minor patch) = true.
Proof.
  intros H1 H2 H3. unfold version_text, plain. rewrite !forallb_app.
  fold (plain major) (plain minor) (plain patch).
  rewrite (digits_plain major), (digits_plain minor), (digits_plain patch)
    by (apply is_int_digits; auto).
  reflexivity.
Qed.

Lemma plain_no_linebreak s :
  plain s = true -> forallb (fun c => negb (is_linebreak c)) s = true.
Proof.
  unfold plain. rewrite !forallb_forall. intros H c Hc.
  apply H in Hc. apply andb_true_iff in Hc as [_ Hc]. exact Hc.
Qed.

Lemma tag_accepted major minor patch rest :
  is_int major = true -> is_int minor = true -> is_int patch = true ->
  re_match tag_pattern (tag_text major minor patch ++ rest) = true.
Proof.
  intros H1 H2 H3. apply re_match_true.
  exists (tag_text major minor patch), rest. split; [reflexivity|].
  unfold tag_pattern, tag_text, version_text.
  apply m_cat; [apply (m_chr "v")|].
  apply m_cat; [apply int_plus_digit; auto|].
  apply m_cat; [apply (m_dot "."); reflexivity|].
  apply m_cat; [apply int_plus_digit; auto|].
  apply m_cat; [apply (m_dot "."); reflexivity|].
  apply int_plus_digit; auto.
Qed.

Lemma strip_version major minor patch ws :
  is_int major = true -> is_int minor = true -> is_int patch = true ->
  all_space ws = true ->
  strip (drop (length (py "v")) (tag_text major minor patch ++ ws))
  = version_text major minor patch.
Proof.
  intros H1 H2 H3 Hws. unfold tag_text. rewrite <- app_assoc.
  change (drop (length (py "v")) (py "v" ++ ?x)) with x.
  apply strip_app_space; auto.
  - apply is_int_cons in H1 as (c & s' & -> & Hc & _).
    simpl. intros c' [= <-]. apply digit_not_space, Hc.
  - intros d Hd. apply digit_not_space.
    apply is_int_cons in H3 as (c & s' & -> & Hc & Hs).
    unfold version_text in Hd. rewrite !app_assoc in Hd.
    rewrite last_app in Hd.
    destruct (last (c :: s')) as [d'|] eqn:E; [|apply last_None in E; discriminate].
    injection Hd as ->. apply last_Some_elem_of, list_elem_of_In in E.
    destruct E as [<- | E]; [auto|].
    rewrite forallb_forall in Hs. auto.
Qed.

Lemma version_of_tag e st major minor patch ws :
  is_int major = true -> is_int minor = true -> is_int patch = true ->
  all_space ws = true ->
  isdir_git e = true -> git_returncode e = 0%Z ->
  git_stdout e = tag_text major minor patch ++ ws ->
  version_from_git e st = (inr (version_text major minor patch), st).
Proof.
  intros H1 H2 H3 Hws Hd Hrc Hout. rewrite version_from_git_eval.
  rewrite Hd, Hrc, Hout, tag_accepted by auto. simpl andb. cbv iota.
  change 1%nat with (length (py "v")). rewrite strip_version by auto.
  reflexivity.
Qed.

Lemma version_without_git e st :
  isdir_git e = false -> version_from_git e st = (inr (py "0.0.0"), st).
Proof. intros Hd. rewrite version_from_git_eval, Hd. reflexivity. Qed.

Lemma version_from_git_cases e :
  (exists ver, forall st', version_from_git e st' = (inr ver, st'))
  \/ (exists x, forall st', version_from_git e st' = (inl x, st')).
Proof.
  destruct (isdir_git e && (git_returncode e =? 0)%Z) eqn:E1;
    [destruct (re_match tag_pattern (git_stdout e)) eqn:E2|];
    [left | right | left]; eexists; intros st';
    rewrite version_from_git_eval, E1, ?E2; reflexivity.
Qed.

(** A tag the pattern of the script refuses stops the run before
    anything is written. *)
Lemma get_version_rejected_tag e st :
  isdir_git e = true -> git_returncode e = 0%Z ->
  re_match tag_pattern (git_stdout e) = false ->
  get_version e st
  = (inl (AssertionError
            (py "We use tags like v0.1.0, but got " ++ git_stdout e)), st).
Proof.
  intros Hd Hrc Hm. apply get_version_raise.
  rewrite version_from_git_eval, Hd, Hrc, Hm. reflexivity.
Qed.

Example release_1_rejected :
  get_version Sample.release_1 (Sample.no_effects ∅)
  = (inl (AssertionError
            (py "We use tags like v0.1.0, but got release-1" ++ [LF])),
     Sample.no_effects ∅).
Proof. apply get_version_rejected_tag; reflexivity. Qed.

(** What the pattern with literal dots accepts, the pattern of the
    script accepts. *)
Lemma spec_pattern_accepted s :
  re_match spec_tag_pattern s = true -> re_match tag_pattern s = true.
Proof.
  rewrite !re_match_true. intros (p & q & -> & Hp). exists p, q.
  split; [reflexivity|]. unfold spec_tag_pattern in Hp. unfold tag_pattern.
  assert (Hdot : forall t, matches (Chr ".") t -> matches Dot t).
  { intros t Ht. inversion Ht; subst. apply m_dot. reflexivity. }
  apply cat_inv in Hp as (a1 & b1 & -> & Ha1 & Hp).
  apply cat_inv in Hp as (a2 & b2 & -> & Ha2 & Hp).
  apply cat_inv in Hp as (a3 & b3 & -> & Ha3 & Hp).
  apply cat_inv in Hp as (a4 & b4 & -> & Ha4 & Hp).
  apply cat_inv in Hp as (a5 & b5 & -> & Ha5 & Hp).
  repeat (apply m_cat; auto).
Qed.

(** C1, amended.  For every tag of the form v<int>.<int>.<int>, followed
    by the white space that ends the output of git, and with the working
    directory being the directory of the script: the tag text with the
    leading v removed and the white space stripped is
    <int>.<int>.<int>, get_version returns exactly that string, and the
    generated file contains the line __version__ = "<that string>". *)
Theorem get_version_of_tag (e : env) (st : state)
    (major minor patch ws : str) :
  is_int major = true -> is_int minor = true -> is_int patch = true ->
  all_space ws = true ->
  isdir_git e = true -> git_returncode e = 0%Z ->
  git_stdout e = tag_text major minor patch ++ ws ->
  cwd e = script_dir e ->
  strip (drop 1 (git_stdout e)) = version_text major minor patch
  /\ fst (get_version e st) = inr (version_text major minor patch)
  /\ exists text,
       files (snd (get_version e st)) !! write_path e = Some text
       /\ In (version_line (version_text major minor patch))
             (splitlines text).
Proof.
  intros H1 H2 H3 Hws Hd Hrc Hout Hcwd.
  pose proof (version_of_tag e st _ _ _ _ H1 H2 H3 Hws Hd Hrc Hout) as Hv.
  pose proof (version_text_plain _ _ _ H1 H2 H3) as Hplain.
  rewrite (get_version_same_dir _ _ _ Hv (same_directory _ Hcwd)).
  cbn [fst snd]. split; [|split].
  - rewrite Hout. change 1%nat with (length (py "v")).
    apply strip_version; auto.
  - rewrite upto_quote_id by exact Hplain. reflexivity.
  - eexists. split.
    + unfold after_update. cbn [files]. apply lookup_insert_eq.
    + apply version_line_in_file, plain_no_linebreak, Hplain.
Qed.

Lemma get_version_of_tag_witness :
  git_stdout Sample.in_checkout = tag_text (py "1") (py "2") (py "3") ++ [LF]
  /\ cwd Sample.in_checkout = script_dir Sample.in_checkout
  /\ fst (get_version Sample.in_checkout (Sample.no_effects ∅))
     = inr (py "1.2.3").
Proof.
  split; [reflexivity|]. split; [reflexivity|].
  apply (get_version_of_tag Sample.in_checkout (Sample.no_effects ∅)
           (py "1") (py "2") (py "3") [LF]); reflexivity.
Defined.

Lemma get_version_of_tag_elsewhere :
  isdir_git Sample.elsewhere = true
  /\ git_returncode Sample.elsewhere = 0%Z
  /\ git_stdout Sample.elsewhere = tag_text (py "1") (py "2") (py "3") ++ [LF]
  /\ strip (drop 1 (git_stdout Sample.elsewhere)) = py "1.2.3"
  /\ fst (get_version Sample.elsewhere (Sample.no_effects Sample.earlier_build))
     = inr (py "0.9.0")
  /\ fst (get_version Sample.elsewhere (Sample.no_effects Sample.earlier_build))
     <> inr (py "1.2.3").
Proof. vm_compute. repeat split; congruence. Qed.

(** C2, at the failing input.  The tag v1x2y3 does not match
    v<int>.<int>.<int>: the pattern with literal dots refuses it.  The
    pattern of the script, whose dots stand for any character, accepts
    it: no assertion error is raised, get_version returns 1x2y3 and the
    generated file carries that value. *)
Theorem malformed_tag_accepted :
  git_stdout Sample.letters_for_dots = py "v1x2y3" ++ [LF]
  /\ re_match spec_tag_pattern (git_stdout Sample.letters_for_dots) = false
  /\ re_match tag_pattern (git_stdout Sample.letters_for_dots) = true
  /\ fst (get_version Sample.letters_for_dots (Sample.no_effects ∅))
     = inr (py "1x2y3")
  /\ files (snd (get_version Sample.letters_for_dots (Sample.no_effects ∅)))
       !! write_path Sample.letters_for_dots
     = Some (percent_s __VERSION_PY (py "1x2y3")).
Proof. vm_compute. repeat split; reflexivity. Qed.

(** C4, amended.  For every run of get_version that completes without
    error in a working directory that is the directory of the script,
    the file generated in that run holds the version the run determined,
    and the string returned is that version up to its first double quote
    or line boundary: it is identical to the version written whenever
    that contains neither. *)
Theorem get_version_round_trip (e : env) (st st' : state) (v : str) :
  cwd e = script_dir e ->
  get_version e st = (inr v, st') ->
  exists ver,
    version_from_git e st = (inr ver, st)
    /\ files st' !! write_path e = Some (percent_s __VERSION_PY ver)
    /\ parse_version (percent_s __VERSION_PY ver) = inr v
    /\ v = upto_quote ver
    /\ (plain ver = true -> v = ver).
Proof.
  intros Hcwd Hrun.
  destruct (version_from_git_cases e) as [[ver Hv] | [x Hx]].
  - rewrite (get_version_same_dir _ _ _ (Hv st) (same_directory _ Hcwd))
      in Hrun.
    injection Hrun as <- <-. exists ver. split; [apply Hv|].
    split; [unfold after_update; cbn [files]; apply lookup_insert_eq|].
    split; [apply read_back|]. split; [reflexivity|].
    intros Hp. apply upto_quote_id, Hp.
  - rewrite (get_version_raise _ _ _ (Hx st)) in Hrun. discriminate.
Qed.

Lemma get_version_round_trip_witness :
  cwd Sample.in_checkout = script_dir Sample.in_checkout
  /\ get_version Sample.in_checkout (Sample.no_effects ∅)
     = (inr (py "1.2.3"),
        after_update Sample.in_checkout (py "1.2.3") (Sample.no_effects ∅))
  /\ exists ver,
       version_from_git Sample.in_checkout (Sample.no_effects ∅)
       = (inr ver, Sample.no_effects ∅)
       /\ files (after_update Sample.in_checkout (py "1.2.3")
                              (Sample.no_effects ∅))
            !! write_path Sample.in_checkout
          = Some (percent_s __VERSION_PY ver)
       /\ parse_version (percent_s __VERSION_PY ver) = inr (py "1.2.3")
       /\ py "1.2.3" = upto_quote ver
       /\ (plain ver = true -> py "1.2.3" = ver).
Proof.
  split; [reflexivity|]. split; [vm_compute; reflexivity|].
  apply (get_version_round_trip Sample.in_checkout (Sample.no_effects ∅)
           (after_update Sample.in_checkout (py "1.2.3") (Sample.no_effects ∅))
           (py "1.2.3"));
    [reflexivity | vm_compute; reflexivity].
Defined.

Lemma round_trip_broken :
  (* a run from another directory *)
  (fst (get_version Sample.elsewhere (Sample.no_effects Sample.earlier_build))
   = inr (py "0.9.0")
   /\ files (snd (get_version Sample.elsewhere
                    (Sample.no_effects Sample.earlier_build)))
        !! write_path Sample.elsewhere
      = Some (percent_s __VERSION_PY (py "1.2.3"))
   /\ parse_version (percent_s __VERSION_PY (py "1.2.3")) = inr (py "1.2.3"))
  (* a tag with a double quote, in the directory of the script *)
  /\ (cwd Sample.quote_in_tag = script_dir Sample.quote_in_tag
      /\ fst (get_version Sample.quote_in_tag (Sample.no_effects ∅))
         = inr (py "1.2.3")
      /\ files (snd (get_version Sample.quote_in_tag (Sample.no_effects ∅)))
           !! write_path Sample.quote_in_tag
         = Some (percent_s __VERSION_PY (py "1.2.3" ++ [DQUOTE] ++ py "x"))
      /\ py "1.2.3" <> py "1.2.3" ++ [DQUOTE] ++ py "x").
Proof. vm_compute. repeat split; congruence. Qed.

(** C6, amended.  When no version-control directory exists in the
    working directory and the working directory is the directory of the
    script, get_version returns the literal string 0.0.0, issues the
    warning about the dummy version, writes 0.0.0 to the generated file
    and does not raise. *)
Theorem get_version_without_git (e : env) (st : state) :
  isdir_git e = false ->
  cwd e = script_dir e ->
  fst (get_version e st) = inr (py "0.0.0")
  /\ warned (snd (get_version e st)) = warned st ++ [dummy_warning]
  /\ files (snd (get_version e st)) !! write_path e
     = Some (percent_s __VERSION_PY (py "0.0.0")).
Proof.
  intros Hd Hcwd.
  rewrite (get_version_same_dir _ _ _ (version_without_git e st Hd)
             (same_directory _ Hcwd)).
  cbn [fst snd]. unfold after_update. cbn [files warned].
  split; [reflexivity|]. split; [reflexivity|]. apply lookup_insert_eq.
Qed.

Lemma get_version_without_git_witness :
  isdir_git Sample.unpacked = false
  /\ cwd Sample.unpacked = script_dir Sample.unpacked
  /\ fst (get_version Sample.unpacked (Sample.no_effects ∅)) = inr (py "0.0.0").
Proof.
  split; [reflexivity|]. split; [reflexivity|].
  apply (get_version_without_git Sample.unpacked (Sample.no_effects ∅));
    reflexivity.
Defined.

Lemma get_version_without_git_elsewhere :
  isdir_git Sample.elsewhere_no_git = false
  /\ fst (get_version Sample.elsewhere_no_git
                      (Sample.no_effects Sample.earlier_build))
     = inr (py "0.9.0")
  /\ fst (get_version Sample.elsewhere_no_git
                      (Sample.no_effects Sample.earlier_build))
     <> inr (py "0.0.0")
  /\ exists x, fst (get_version Sample.elsewhere_no_git (Sample.no_effects ∅))
               = inl x.
Proof.
  split; [reflexivity|]. split; [vm_compute; reflexivity|].
  split; [vm_compute; congruence|]. eexists. vm_compute. reflexivity.
Qed.

(** C7.  Two calls of get_version in sequence, with the same
    version-control state, have the same outcome, the same string when
    they return, and leave the same files with the same contents, the
    generated file among them. *)
Theorem get_version_idempotent (e : env) (st : state) :
  fst (get_version e (snd (get_version e st))) = fst (get_version e st)
  /\ files (snd (get_version e (snd (get_version e st))))
     = files (snd (get_version e st))
  /\ files (snd (get_version e (snd (get_version e st)))) !! write_path e
     = files (snd (get_version e st)) !! write_path e.
Proof.
  assert (H : fst (get_version e (snd (get_version e st)))
              = fst (get_version e st)
              /\ files (snd (get_version e (snd (get_version e st))))
                 = files (snd (get_version e st))).
  { destruct (version_from_git_cases e) as [[ver Hv] | [x Hx]].
    - rewrite (get_version_ok e st ver (Hv st)). cbn [fst snd].
      rewrite (get_version_ok e _ ver (Hv _)). cbn [fst snd].
      assert (Hf : files (after_update e ver (after_update e ver st))
                   = files (after_update e ver st))
        by (unfold after_update; cbn [files]; apply insert_insert_eq).
      rewrite Hf. split; reflexivity.
    - rewrite (get_version_raise e st x (Hx st)). cbn [fst snd].
      rewrite (get_version_raise e st x (Hx st)). split; reflexivity. }
  destruct H as [H1 H2]. rewrite H2. repeat split; auto.
Qed.

Example get_version_twice :
  fst (get_version Sample.in_checkout (Sample.no_effects ∅)) = inr (py "1.2.3")
  /\ fst (get_version Sample.in_checkout
            (snd (get_version Sample.in_checkout (Sample.no_effects ∅))))
     = inr (py "1.2.3").
Proof. vm_compute. split; reflexivity. Qed.

(** C10.  The writer puts the generated file at the relative path
    pecos/_version.py resolved against the working directory; the reader
    takes the same relative path under the directory of the script, and
    get_version returns what it parses from that file.  When the two
    directories are the same, that is the version just written; when the
    two paths differ, it is whatever the file under the directory of the
    script held before the run, or a missing-file error. *)
Theorem version_file_paths (e : env) (st : state) (ver : str) :
  version_from_git e st = (inr ver, st) ->
  files (snd (get_version e st))
  = <[os_path_join (cwd e) __VERSION_FP := percent_s __VERSION_PY ver]>
      (files st)
  /\ fst (get_version e st)
     = match files (snd (get_version e st))
               !! os_path_join (script_dir e) __VERSION_FP with
       | Some text => parse_version text
       | None => inl (FileNotFoundError
                        (os_path_join (script_dir e) __VERSION_FP))
       end
  /\ (cwd e = script_dir e ->
      fst (get_version e st) = parse_version (percent_s __VERSION_PY ver))
  /\ (os_path_join (cwd e) __VERSION_FP
      <> os_path_join (script_dir e) __VERSION_FP ->
      fst (get_version e st)
      = match files st !! os_path_join (script_dir e) __VERSION_FP with
        | Some text => parse_version text
        | None => inl (FileNotFoundError
                         (os_path_join (script_dir e) __VERSION_FP))
        end).
Proof.
  intros Hv. split; [|split; [|split]].
  - rewrite (get_version_ok _ _ _ Hv). reflexivity.
  - rewrite (get_version_ok _ _ _ Hv). reflexivity.
  - intros Hcwd.
    rewrite (get_version_same_dir _ _ _ Hv (same_directory _ Hcwd)).
    cbn [fst]. symmetry. apply read_back.
  - intros Hne. rewrite (get_version_other_dir _ _ _ Hv Hne). reflexivity.
Qed.

Lemma version_file_paths_witness :
  version_from_git Sample.elsewhere (Sample.no_effects Sample.earlier_build)
  = (inr (py "1.2.3"), Sample.no_effects Sample.earlier_build)
  /\ files (snd (get_version Sample.elsewhere
                   (Sample.no_effects Sample.earlier_build)))
     = <[py "/tmp/build/pecos/_version.py"
         := percent_s __VERSION_PY (py "1.2.3")]> Sample.earlier_build.
Proof.
  split; [reflexivity|].
  apply (version_file_paths Sample.elsewhere
           (Sample.no_effects Sample.earlier_build) (py "1.2.3")).
  reflexivity.
Defined.
End VersionClaims.

(** ** The BLAS locator *)

Section BlasClaims.
Import BlasHelper.

Lemma get_blas_lib_dir_empty :
  get_blas_lib_dir ∅ = inl (AssertionError no_library).
Proof. reflexivity. Qed.

(** The outcome for a dictionary that has both entries. *)
Lemma get_blas_lib_dir_entries info libs dirs :
  info !! py "libraries" = Some libs ->
  info !! py "library_dirs" = Some dirs ->
  get_blas_lib_dir info
  = match libs, dirs with
    | [], _ => inl (AssertionError no_library)
    | _ :: _, [] => inl (AssertionError no_library_dir)
    | _ :: _, _ :: _ => inr (libs, dirs)
    end.
Proof.
  intros Hl Hd. unfold get_blas_lib_dir.
  rewrite bool_decide_eq_false_2
    by (intros ->; rewrite lookup_empty in Hl; discriminate).
  rewrite Hl, Hd. destruct libs, dirs; reflexivity.
Qed.

(** A dictionary that is not empty and lacks one of the two entries makes
    the subscription raise. *)
Lemma get_blas_lib_dir_missing_key info :
  info <> ∅ ->
  info !! py "libraries" = None \/ info !! py "library_dirs" = None ->
  exists key, get_blas_lib_dir info = inl (KeyError key).
Proof.
  intros Hne H. unfold get_blas_lib_dir.
  rewrite bool_decide_eq_false_2 by exact Hne.
  destruct (info !! py "libraries") as [libs|]; [|eauto].
  destruct H as [H | ->]; [discriminate | eauto].
Qed.

Lemma get_blas_lib_dir_cases info :
  info = ∅
  \/ (exists libs dirs,
        info !! py "libraries" = Some libs
        /\ info !! py "library_dirs" = Some dirs)
  \/ (exists key, get_blas_lib_dir info = inl (KeyError key)).
Proof.
  destruct (decide (info = ∅)) as [|Hne]; [auto|]. right.
  destruct (info !! py "libraries") as [libs|] eqn:El;
    [destruct (info !! py "library_dirs") as [dirs|] eqn:Ed|].
  - left. eauto.
  - right. apply get_blas_lib_dir_missing_key; auto.
  - right. apply get_blas_lib_dir_missing_key; auto.
Qed.

(** C3.  get_blas_lib_dir returns exactly the pair of the libraries and
    the library_dirs entries of the system-info result, unchanged, when
    both are non-empty (the result is then not empty).  It raises an
    assertion error exactly when the result is empty or, both entries
    being there, the libraries list or the library_dirs list is empty; and
    the message of that error names BLAS/LAPACK. *)
Theorem get_blas_lib_dir_spec (info : gmap str (list str)) :
  (forall libs dirs,
      info !! py "libraries" = Some libs ->
      info !! py "library_dirs" = Some dirs ->
      libs <> [] -> dirs <> [] ->
      info <> ∅ /\ get_blas_lib_dir info = inr (libs, dirs))
  /\ ((exists msg, get_blas_lib_dir info = inl (AssertionError msg))
      <-> (info = ∅
           \/ exists libs dirs,
               info !! py "libraries" = Some libs
               /\ info !! py "library_dirs" = Some dirs
               /\ (libs = [] \/ dirs = [])))
  /\ (forall msg,
        get_blas_lib_dir info = inl (AssertionError msg) ->
        substring (py "BLAS/LAPACK") msg = true).
Proof.
  split; [|split].
  - intros libs dirs Hl Hd Hlibs Hdirs. split.
    + intros ->. rewrite lookup_empty in Hl. discriminate.
    + rewrite (get_blas_lib_dir_entries _ _ _ Hl Hd).
      destruct libs, dirs; congruence.
  - split.
    + intros [msg Hm].
      destruct (get_blas_lib_dir_cases info)
        as [? | [(libs & dirs & Hl & Hd) | [key Hk]]]; [auto| |congruence].
      right. exists libs, dirs. split; [auto|]. split; [auto|].
      rewrite (get_blas_lib_dir_entries _ _ _ Hl Hd) in Hm.
      destruct libs, dirs; auto. discriminate.
    + intros [-> | (libs & dirs & Hl & Hd & Hempty)].
      * eexists. apply get_blas_lib_dir_empty.
      * rewrite (get_blas_lib_dir_entries _ _ _ Hl Hd).
        destruct libs, dirs; eauto; destruct Hempty; congruence.
  - intros msg Hm.
    destruct (get_blas_lib_dir_cases info)
      as [-> | [(libs & dirs & Hl & Hd) | [key Hk]]]; [| |congruence].
    + injection Hm as <-. reflexivity.
    + rewrite (get_blas_lib_dir_entries _ _ _ Hl Hd) in Hm.
      destruct libs, dirs; try discriminate; injection Hm as <-;
        reflexivity.
Qed.

Lemma get_blas_lib_dir_spec_witness :
  Sample.openblas !! py "libraries" = Some [py "openblas"]
  /\ Sample.openblas !! py "library_dirs" = Some [py "/usr/lib"]
  /\ get_blas_lib_dir Sample.openblas = inr ([py "openblas"], [py "/usr/lib"]).
Proof.
  split; [reflexivity|]. split; [reflexivity|].
  apply (proj1 (get_blas_lib_dir_spec Sample.openblas)
               [py "openblas"] [py "/usr/lib"]);
    [reflexivity | reflexivity | discriminate | discriminate].
Defined.
End BlasClaims.

(** ** The extension descriptor *)

Section ExtensionClaims.

Lemma manual_compile_args_unset environ :
  environ !! py "PECOS_MANUAL_COMPILE_ARGS" = None ->
  manual_compile_args environ = [].
Proof. unfold manual_compile_args. intros ->. reflexivity. Qed.

Lemma manual_compile_args_set environ value :
  environ !! py "PECOS_MANUAL_COMPILE_ARGS" = Some value ->
  manual_compile_args environ
  = match value with [] => [] | _ :: _ => split ","%char value end.
Proof.
  unfold manual_compile_args. intros ->. destruct value; reflexivity.
Qed.

(** C5, amended.  The compile flags of the descriptor are exactly
    -fopenmp, -O3, -std=c++14, in that order, when the environment
    variable of the extra flags is unset; they are those three followed
    by the comma-split entries of the variable, in their order, when it
    is set to a non-empty string; and they are those three alone when it
    is set to the empty string. *)
Theorem compile_flags (blas_lib blas_dir : list str)
    (environ : gmap str str) :
  (environ !! py "PECOS_MANUAL_COMPILE_ARGS" = None ->
   extra_compile_args
     (ext_module blas_lib blas_dir (manual_compile_args environ))
   = [py "-fopenmp"; py "-O3"; py "-std=c++14"])
  /\ (forall value,
        environ !! py "PECOS_MANUAL_COMPILE_ARGS" = Some value ->
        value <> [] ->
        extra_compile_args
          (ext_module blas_lib blas_dir (manual_compile_args environ))
        = [py "-fopenmp"; py "-O3"; py "-std=c++14"]
            ++ split ","%char value)
  /\ (environ !! py "PECOS_MANUAL_COMPILE_ARGS" = Some [] ->
      extra_compile_args
        (ext_module blas_lib blas_dir (manual_compile_args environ))
      = [py "-fopenmp"; py "-O3"; py "-std=c++14"]).
Proof.
  split; [|split].
  - intros H. cbn [extra_compile_args ext_module].
    rewrite manual_compile_args_unset by exact H. reflexivity.
  - intros value H Hne. cbn [extra_compile_args ext_module].
    rewrite (manual_compile_args_set _ _ H).
    destruct value; [congruence | reflexivity].
  - intros H. cbn [extra_compile_args ext_module].
    rewrite (manual_compile_args_set _ _ H). reflexivity.
Qed.

Lemma compile_flags_witness :
  Sample.extra_flags_set !! py "PECOS_MANUAL_COMPILE_ARGS"
  = Some (py "-Werror,-Wall")
  /\ extra_compile_args
       (ext_module [py "openblas"] [py "/usr/lib"]
                   (manual_compile_args Sample.extra_flags_set))
     = [py "-fopenmp"; py "-O3"; py "-std=c++14"; py "-Werror"; py "-Wall"]
  /\ extra_compile_args
       (ext_module [py "openblas"] [py "/usr/lib"] (manual_compile_args ∅))
     = [py "-fopenmp"; py "-O3"; py "-std=c++14"].
Proof.
  split; [reflexivity|]. split.
  - apply (proj1 (proj2 (compile_flags [py "openblas"] [py "/usr/lib"]
                                       Sample.extra_flags_set))
                 (py "-Werror,-Wall"));
      [reflexivity | discriminate].
  - apply (proj1 (compile_flags [py "openblas"] [py "/usr/lib"] ∅)).
    reflexivity.
Defined.

Lemma compile_flags_of_empty_value :
  Sample.extra_flags_empty !! py "PECOS_MANUAL_COMPILE_ARGS" = Some []
  /\ split ","%char [] = [[]]
  /\ extra_compile_args
       (ext_module [py "openblas"] [py "/usr/lib"]
                   (manual_compile_args Sample.extra_flags_empty))
     = [py "-fopenmp"; py "-O3"; py "-std=c++14"]
  /\ extra_compile_args
       (ext_module [py "openblas"] [py "/usr/lib"]
                   (manual_compile_args Sample.extra_flags_empty))
     <> [py "-fopenmp"; py "-O3"; py "-std=c++14"] ++ split ","%char [].
Proof. vm_compute. repeat split; congruence. Qed.

Lemma split_join_colon (dirs : list str) :
  dirs <> [] ->
  Forall (fun d => contains ":"%char d = false) dirs ->
  split ":"%char (join (py ":") dirs) = dirs.
Proof.
  assert (Hno : forall d, contains ":"%char d = false ->
            forallb (fun c => negb (chr_eqb c ":"%char)) d = true).
  { intros d. unfold contains. induction d as [|c d IH]; [reflexivity|].
    cbn [existsb forallb]. rewrite orb_false_iff. intros [Hc Hd].
    apply chr_eqb_neq in Hc.
    assert (Hc' : chr_eqb c ":"%char = false)
      by (apply chr_eqb_neq; congruence).
    rewrite Hc'. cbn [negb andb]. auto. }
  induction dirs as [|d dirs IH]; [congruence|]. intros _ Hall.
  inversion Hall as [|? ? Hd Hdirs]; subst.
  destruct dirs as [|d' dirs].
  - simpl. apply split_no_sep, Hno, Hd.
  - rewrite join_cons. change (py ":" ++ ?x) with (":"%char :: x).
    rewrite split_app_sep by (apply Hno, Hd).
    rewrite IH; [reflexivity | congruence | exact Hdirs].
Qed.

(** The script hands the located libraries and directories and the extra
    flags of the environment to the descriptor, and stops when
    [get_blas_lib_dir] raises. *)
Lemma script_ext_module_located info environ libs dirs :
  info !! py "libraries" = Some libs ->
  info !! py "library_dirs" = Some dirs ->
  libs <> [] -> dirs <> [] ->
  script_ext_module info environ
  = inr (ext_module libs dirs (manual_compile_args environ)).
Proof.
  intros Hl Hd Hlibs Hdirs. unfold script_ext_module.
  rewrite (get_blas_lib_dir_entries _ _ _ Hl Hd).
  destruct libs, dirs; congruence.
Qed.


(** C8.  Whatever directories were found, the link flags of the
    descriptor contain the run-path entry -Wl,-rpath,<dirs>, where <dirs>
    is the directories joined with a colon in their order: for exactly
    one directory it is that directory, and for a non-empty list of
    directories without colons, splitting <dirs> at the colons gives back
    the list. *)
Theorem rpath_link_flag (blas_lib blas_dir extra : list str) :
  In (py "-Wl,-rpath," ++ join (py ":") blas_dir)
     (extra_link_args (ext_module blas_lib blas_dir extra))
  /\ (forall d, blas_dir = [d] ->
        In (py "-Wl,-rpath," ++ d)
           (extra_link_args (ext_module blas_lib blas_dir extra)))
  /\ (forall d d' rest, blas_dir = d :: d' :: rest ->
        join (py ":") blas_dir = d ++ py ":" ++ join (py ":") (d' :: rest))
  /\ (blas_dir <> [] ->
      Forall (fun d => contains ":"%char d = false) blas_dir ->
      split ":"%char (join (py ":") blas_dir) = blas_dir).
Proof.
  split; [|split; [|split]].
  - cbn [extra_link_args ext_module]. right. left. reflexivity.
  - intros d ->. cbn [extra_link_args ext_module]. right. left. reflexivity.
  - intros d d' rest ->. apply join_cons.
  - apply split_join_colon.
Qed.

Lemma rpath_link_flag_witness :
  extra_link_args
    (ext_module [py "openblas"] [py "/usr/lib"; py "/opt/lib"] [])
  = [py "-Wl,--no-as-needed"; py "-Wl,-rpath,/usr/lib:/opt/lib"]
  /\ split ":"%char (join (py ":") [py "/usr/lib"; py "/opt/lib"])
     = [py "/usr/lib"; py "/opt/lib"].
Proof.
  split; [reflexivity|].
  apply (proj2 (proj2 (proj2
           (rpath_link_flag [py "openblas"] [py "/usr/lib"; py "/opt/lib"] []))));
    [discriminate | repeat constructor].
Defined.

(** C9.  When PECOS_MANUAL_COMPILE_ARGS is set to the empty string, the
    extra flags are the empty sequence, as they are when the variable is
    unset; they are not the one-element list holding the empty string that
    splitting the empty string at commas gives. *)
Theorem empty_value_gives_no_flags (environ : gmap str str) :
  environ !! py "PECOS_MANUAL_COMPILE_ARGS" = Some [] ->
  manual_compile_args environ = []
  /\ manual_compile_args environ
     = manual_compile_args (delete (py "PECOS_MANUAL_COMPILE_ARGS") environ)
  /\ split ","%char [] = [[]]
  /\ manual_compile_args environ <> split ","%char [].
Proof.
  intros H. rewrite (manual_compile_args_set _ _ H).
  rewrite manual_compile_args_unset by apply lookup_delete_eq.
  repeat split. discriminate.
Qed.

Lemma empty_value_gives_no_flags_witness :
  Sample.extra_flags_empty !! py "PECOS_MANUAL_COMPILE_ARGS" = Some []
  /\ manual_compile_args Sample.extra_flags_empty = [].
Proof.
  split; [reflexivity|].
  apply (empty_value_gives_no_flags Sample.extra_flags_empty). reflexivity.
Defined.
End ExtensionClaims.

(** * Further properties of the code *)

(** ** What the tag pattern accepts *)

Section TagPattern.
Import VersionHelper.

Lemma chr_inv c s : matches (Chr c) s -> s = [c].
Proof. inversion 1; reflexivity. Qed.

Lemma dot_inv s : matches Dot s -> exists c, s = [c] /\ chr_eqb c LF = false.
Proof. inversion 1; eauto. Qed.

Lemma star_digit_inv s : matches (Star Digit) s -> forallb isdigit s = true.
Proof.
  intros H. remember (Star Digit) as r eqn:Er.
  induction H; try discriminate; [reflexivity|].
  injection Er as ->. rewrite forallb_app, IHmatches2 by reflexivity.
  inversion H as [| |c Hc| | | | | | |]; subst. simpl. rewrite Hc. reflexivity.
Qed.

Lemma plus_digit_inv s : matches (Plus Digit) s -> is_int s = true.
Proof.
  intros H. apply plus_inv in H as (s1 & s2 & -> & H1 & H2).
  inversion H1 as [| |c Hc| | | | | | |]; subst.
  unfold is_int. simpl. rewrite Hc. apply star_digit_inv, H2.
Qed.

(** X1.  The assertion on the tag passes exactly for a text that begins
    with v, digits, one character that is not a newline, digits, one
    character that is not a newline, and digits; anything may follow. *)
Theorem tag_pattern_accepts (s : str) :
  re_match tag_pattern s = true
  <-> exists major x minor y patch rest,
        s = py "v" ++ major ++ [x] ++ minor ++ [y] ++ patch ++ rest
        /\ is_int major = true /\ is_int minor = true /\ is_int patch = true
        /\ x <> LF /\ y <> LF.
Proof.
  rewrite re_match_true. split.
  - intros (p & q & -> & Hp). unfold tag_pattern in Hp.
    apply cat_inv in Hp as (a1 & b1 & -> & Ha1 & Hp).
    apply cat_inv in Hp as (a2 & b2 & -> & Ha2 & Hp).
    apply cat_inv in Hp as (a3 & b3 & -> & Ha3 & Hp).
    apply cat_inv in Hp as (a4 & b4 & -> & Ha4 & Hp).
    apply cat_inv in Hp as (a5 & b5 & -> & Ha5 & Hp).
    apply chr_inv in Ha1 as ->.
    apply dot_inv in Ha3 as (x & -> & Hx).
    apply dot_inv in Ha5 as (y & -> & Hy).
    exists a2, x, a4, y, b5, q.
    split; [rewrite <- !app_assoc; reflexivity|].
    repeat split; try (apply plus_digit_inv; assumption);
      apply chr_eqb_neq; assumption.
  - intros (major & x & minor & y & patch & rest & -> & H1 & H2 & H3 & Hx & Hy).
    exists (py "v" ++ major ++ [x] ++ minor ++ [y] ++ patch), rest.
    split; [rewrite <- !app_assoc; reflexivity|].
    unfold tag_pattern.
    apply m_cat; [apply (m_chr "v")|].
    apply m_cat; [apply int_plus_digit; auto|].
    apply m_cat; [apply m_dot, chr_eqb_neq, Hx|].
    apply m_cat; [apply int_plus_digit; auto|].
    apply m_cat; [apply m_dot, chr_eqb_neq, Hy|].
    apply int_plus_digit; auto.
Qed.

End TagPattern.

(** ** Runs of [get_version] *)

Section VersionRuns.
Import VersionHelper.

(** X2.  When git describe succeeds with an output the pattern refuses,
    get_version raises the assertion error, whose message ends with that
    output, and the run has no effect: no file is written, no warning is
    issued and nothing is printed. *)
Theorem rejected_tag_has_no_effect (e : env) (st : state) :
  isdir_git e = true ->
  git_returncode e = 0%Z ->
  re_match tag_pattern (git_stdout e) = false ->
  fst (get_version e st)
  = inl (AssertionError (py "We use tags like v0.1.0, but got " ++ git_stdout e))
  /\ snd (get_version e st) = st
  /\ __update_version_py e st
     = (inl (AssertionError
               (py "We use tags like v0.1.0, but got " ++ git_stdout e)), st).
Proof.
  intros Hd Hrc Hm.
  assert (Hv : version_from_git e st
               = (inl (AssertionError
                         (py "We use tags like v0.1.0, but got " ++ git_stdout e)),
                  st))
    by (rewrite version_from_git_eval, Hd, Hrc, Hm; reflexivity).
  rewrite (get_version_raise _ _ _ Hv), (update_raise _ _ _ Hv).
  repeat split.
Qed.

Lemma rejected_tag_has_no_effect_witness :
  re_match tag_pattern (git_stdout Sample.release_1) = false
  /\ snd (get_version Sample.release_1 (Sample.no_effects Sample.earlier_build))
     = Sample.no_effects Sample.earlier_build.
Proof.
  split; [reflexivity|].
  apply (rejected_tag_has_no_effect Sample.release_1
           (Sample.no_effects Sample.earlier_build)); reflexivity.
Defined.

(** X3.  When .git is a directory but git describe fails (non-zero return
    code), its output is ignored: the dummy version 0.0.0 is written to the
    generated file with the warning, and in the directory of the script
    get_version returns 0.0.0. *)
Theorem git_failure_gives_dummy_version (e : env) (st : state) :
  isdir_git e = true ->
  git_returncode e <> 0%Z ->
  files (snd (get_version e st)) !! write_path e
  = Some (percent_s __VERSION_PY (py "0.0.0"))
  /\ warned (snd (get_version e st)) = warned st ++ [dummy_warning]
  /\ (cwd e = script_dir e -> fst (get_version e st) = inr (py "0.0.0")).
Proof.
  intros Hd Hrc.
  assert (Hv : version_from_git e st = (inr (py "0.0.0"), st)).
  { rewrite version_from_git_eval, Hd.
    destruct (Z.eqb_spec (git_returncode e) 0); [contradiction | reflexivity]. }
  split; [|split].
  - rewrite (get_version_ok _ _ _ Hv). cbn [snd]. unfold after_update.
    cbn [files]. apply lookup_insert_eq.
  - rewrite (get_version_ok _ _ _ Hv). reflexivity.
  - intros Hcwd.
    rewrite (get_version_same_dir _ _ _ Hv (same_directory _ Hcwd)).
    reflexivity.
Qed.

Lemma git_failure_gives_dummy_version_witness :
  fst (get_version (mkEnv (py "/src/pecos") (py "/src/pecos") true 128
                          (py "fatal: No names found"))
                   (Sample.no_effects ∅))
  = inr (py "0.0.0").
Proof.
  apply (git_failure_gives_dummy_version
           (mkEnv (py "/src/pecos") (py "/src/pecos") true 128
                  (py "fatal: No names found"))
           (Sample.no_effects ∅));
    [reflexivity | discriminate | reflexivity].
Defined.

(** X4.  A run that passes the tag step issues the warning about the dummy
    version exactly when the version it writes is 0.0.0, also when that
    version comes from a tag v0.0.0, and prints the one line
    Set version to <version>. *)
Theorem warning_exactly_for_dummy_version (e : env) (st : state) (ver : str) :
  version_from_git e st = (inr ver, st) ->
  (ver = py "0.0.0" ->
   warned (snd (get_version e st)) = warned st ++ [dummy_warning])
  /\ (ver <> py "0.0.0" -> warned (snd (get_version e st)) = warned st)
  /\ printed (snd (get_version e st))
     = printed st ++ [py "Set version to " ++ ver].
Proof.
  intros Hv. rewrite (get_version_ok _ _ _ Hv). cbn [snd].
  unfold after_update. cbn [warned printed]. split; [|split].
  - intros ->. reflexivity.
  - intros Hne. rewrite bool_decide_eq_false_2 by exact Hne. apply app_nil_r.
  - reflexivity.
Qed.

Lemma warning_exactly_for_dummy_version_witness :
  (warned (snd (get_version Sample.in_checkout (Sample.no_effects ∅))) = [])
  /\ warned (snd (get_version
                    (mkEnv (py "/src/pecos") (py "/src/pecos") true 0
                           (py "v0.0.0" ++ [LF]))
                    (Sample.no_effects ∅)))
     = [dummy_warning].
Proof.
  split.
  - apply (proj1 (proj2 (warning_exactly_for_dummy_version
                           Sample.in_checkout (Sample.no_effects ∅) (py "1.2.3")
                           eq_refl))).
    discriminate.
  - apply (proj1 (warning_exactly_for_dummy_version
                    (mkEnv (py "/src/pecos") (py "/src/pecos") true 0
                           (py "v0.0.0" ++ [LF]))
                    (Sample.no_effects ∅) (py "0.0.0") eq_refl)).
    reflexivity.
Defined.

(** X5.  get_version changes no file but the generated one: whatever the
    outcome, every other path holds after the run what it held before. *)
Theorem get_version_touches_one_file (e : env) (st : state) (p : str) :
  p <> write_path e ->
  files (snd (get_version e st)) !! p = files st !! p.
Proof.
  intros Hp. destruct (version_from_git_cases e) as [[ver Hv] | [x Hx]].
  - rewrite (get_version_ok _ _ _ (Hv st)). cbn [snd]. unfold after_update.
    cbn [files]. apply lookup_insert_ne. congruence.
  - rewrite (get_version_raise _ _ _ (Hx st)). reflexivity.
Qed.

Lemma get_version_touches_one_file_witness :
  files (snd (get_version Sample.elsewhere
                          (Sample.no_effects Sample.earlier_build)))
    !! py "/src/pecos/pecos/_version.py"
  = Some (percent_s __VERSION_PY (py "0.9.0")).
Proof.
  rewrite (get_version_touches_one_file Sample.elsewhere
             (Sample.no_effects Sample.earlier_build)
             (py "/src/pecos/pecos/_version.py")).
  - reflexivity.
  - discriminate.
Defined.
End VersionRuns.

(** ** The version text and the two paths *)

Section Stripping.
Import VersionHelper.

Lemma dropwhile_head {A} (f : A -> bool) l x :
  head (dropwhile f l) = Some x -> f x = false.
Proof.
  induction l as [|a l IH]; simpl; [discriminate|].
  destruct (f a) eqn:E; [auto|]. simpl. intros [= <-]. exact E.
Qed.

Lemma dropwhile_suffix {A} (f : A -> bool) l :
  exists l0, l = l0 ++ dropwhile f l.
Proof.
  induction l as [|a l [l0 IH]]; simpl; [exists []; reflexivity|].
  destruct (f a); [exists (a :: l0); simpl; congruence | exists []; reflexivity].
Qed.

Lemma rstrip_prefix s : exists ws, s = rstrip s ++ ws.
Proof.
  unfold rstrip. destruct (dropwhile_suffix isspace (rev s)) as [l0 H].
  exists (rev l0). rewrite <- rev_app_distr, <- H, rev_involutive. reflexivity.
Qed.

Lemma last_rev_head {A} (l : list A) : last (rev l) = head l.
Proof. destruct l as [|a l]; [reflexivity|]. simpl. apply last_snoc. Qed.

Lemma rstrip_last s c : last (rstrip s) = Some c -> isspace c = false.
Proof.
  unfold rstrip. rewrite last_rev_head. apply dropwhile_head.
Qed.

Lemma strip_ends s :
  (forall c, head (strip s) = Some c -> isspace c = false)
  /\ (forall c, last (strip s) = Some c -> isspace c = false).
Proof.
  unfold strip. split; [|apply rstrip_last].
  intros c H. destruct (rstrip_prefix (lstrip s)) as [ws Hws].
  apply (dropwhile_head isspace s). fold (lstrip s). rewrite Hws.
  destruct (rstrip (lstrip s)); [discriminate | exact H].
Qed.

(** X6.  The version a run takes from git, or the dummy version, neither
    begins nor ends with white space. *)
Theorem version_has_no_outer_space (e : env) (st : state) (ver : str) :
  version_from_git e st = (inr ver, st) ->
  (forall c, head ver = Some c -> isspace c = false)
  /\ (forall c, last ver = Some c -> isspace c = false).
Proof.
  rewrite version_from_git_eval.
  destruct (isdir_git e && (git_returncode e =? 0)%Z);
    [destruct (re_match tag_pattern (git_stdout e))|].
  - intros [= <-]. apply strip_ends.
  - discriminate.
  - intros [= <-]. split; intros c [= <-]; reflexivity.
Qed.

Lemma version_has_no_outer_space_witness :
  version_from_git (mkEnv (py "/src/pecos") (py "/src/pecos") true 0
                          (py "v1.2.3 " ++ [CR; LF]))
                   (Sample.no_effects ∅)
  = (inr (py "1.2.3"), Sample.no_effects ∅)
  /\ isspace "3" = false.
Proof.
  split; [reflexivity|].
  apply (proj2 (version_has_no_outer_space
                  (mkEnv (py "/src/pecos") (py "/src/pecos") true 0
                         (py "v1.2.3 " ++ [CR; LF]))
                  (Sample.no_effects ∅) (py "1.2.3") eq_refl) "3"%char).
  reflexivity.
Defined.

Lemma upto_quote_plain s : plain (upto_quote s) = true.
Proof.
  unfold plain, upto_quote. induction s as [|c s IH]; [reflexivity|].
  simpl. destruct (negb (chr_eqb c DQUOTE) && negb (is_linebreak c)) eqn:E;
    [|reflexivity].
  simpl. rewrite E, IH. reflexivity.
Qed.

Lemma takewhile_prefix {A} (f : A -> bool) l :
  exists rest, l = takewhile f l ++ rest.
Proof.
  induction l as [|a l [rest IH]]; simpl; [exists []; reflexivity|].
  destruct (f a); [exists rest; simpl; congruence | eexists; reflexivity].
Qed.

(** X7.  In the directory of the script, the string get_version returns
    contains no double quote and no line boundary, and is a prefix of the
    version written to the generated file. *)
Theorem returned_version_is_plain_prefix (e : env) (st st' : state) (v : str) :
  cwd e = script_dir e ->
  get_version e st = (inr v, st') ->
  plain v = true
  /\ exists rest,
       files st' !! write_path e = Some (percent_s __VERSION_PY (v ++ rest)).
Proof.
  intros Hcwd Hrun.
  destruct (version_from_git_cases e) as [[ver Hv] | [x Hx]].
  - rewrite (get_version_same_dir _ _ _ (Hv st) (same_directory _ Hcwd)) in Hrun.
    injection Hrun as <- <-. split; [apply upto_quote_plain|].
    destruct (takewhile_prefix
                (fun c => negb (chr_eqb c DQUOTE) && negb (is_linebreak c)) ver)
      as [rest Hrest].
    exists rest. unfold upto_quote. rewrite <- Hrest.
    unfold after_update. cbn [files]. apply lookup_insert_eq.
  - rewrite (get_version_raise _ _ _ (Hx st)) in Hrun. discriminate.
Qed.

Lemma returned_version_is_plain_prefix_witness :
  plain (py "1.2.3") = true
  /\ exists rest,
       files (after_update Sample.quote_in_tag
                (py "1.2.3" ++ [DQUOTE] ++ py "x") (Sample.no_effects ∅))
         !! write_path Sample.quote_in_tag
       = Some (percent_s __VERSION_PY (py "1.2.3" ++ rest)).
Proof.
  apply (returned_version_is_plain_prefix Sample.quote_in_tag
           (Sample.no_effects ∅));
    [reflexivity | vm_compute; reflexivity].
Defined.

(** X8.  The tag is matched at its start only: when the output of git is
    v<int>.<int>.<int> followed by more text and then white space, the run
    accepts it and the version is <int>.<int>.<int> with that text kept;
    in the directory of the script get_version returns it when the text has
    no double quote and no line boundary. *)
Theorem tag_suffix_is_kept (e : env) (st : state)
    (major minor patch suffix ws : str) :
  is_int major = true -> is_int minor = true -> is_int patch = true ->
  (forall c, last suffix = Some c -> isspace c = false) ->
  suffix <> [] ->
  all_space ws = true ->
  isdir_git e = true -> git_returncode e = 0%Z ->
  git_stdout e = tag_text major minor patch ++ suffix ++ ws ->
  version_from_git e st = (inr (version_text major minor patch ++ suffix), st)
  /\ (cwd e = script_dir e -> plain suffix = true ->
      fst (get_version e st) = inr (version_text major minor patch ++ suffix)).
Proof.
  intros H1 H2 H3 Hlast Hne Hws Hd Hrc Hout.
  assert (Hv : version_from_git e st
               = (inr (version_text major minor patch ++ suffix), st)).
  { rewrite version_from_git_eval, Hd, Hrc, Hout, tag_accepted by auto.
    simpl andb. cbv iota. unfold tag_text. rewrite <- app_assoc.
    change (drop 1 (py "v" ++ ?x)) with x. rewrite app_assoc.
    rewrite strip_app_space; auto.
    - apply is_int_cons in H1 as (c & s' & -> & Hc & _).
      simpl. intros c' [= <-]. apply digit_not_space, Hc.
    - intros c Hc. apply Hlast. rewrite last_app in Hc.
      destruct (last suffix) as [d|] eqn:E; [exact Hc|].
      apply last_None in E. contradiction. }
  split; [exact Hv|]. intros Hcwd Hplain.
  rewrite (get_version_same_dir _ _ _ Hv (same_directory _ Hcwd)). cbn [fst].
  rewrite upto_quote_id; [reflexivity|].
  unfold plain in *. rewrite forallb_app, Hplain, andb_true_r.
  apply (version_text_plain _ _ _ H1 H2 H3).
Qed.

Lemma tag_suffix_is_kept_witness :
  fst (get_version (mkEnv (py "/src/pecos") (py "/src/pecos") true 0
                          (py "v1.2.3-rc1" ++ [LF]))
                   (Sample.no_effects ∅))
  = inr (py "1.2.3-rc1").
Proof.
  apply (proj2 (tag_suffix_is_kept
                  (mkEnv (py "/src/pecos") (py "/src/pecos") true 0
                         (py "v1.2.3-rc1" ++ [LF]))
                  (Sample.no_effects ∅)
                  (py "1") (py "2") (py "3") (py "-rc1") [LF]
                  eq_refl eq_refl eq_refl
                  ltac:(intros c [= <-]; reflexivity)
                  ltac:(discriminate) eq_refl eq_refl eq_refl eq_refl));
    reflexivity.
Defined.

Lemma generated_path_of_dir d :
  no_trailing_slash d = true ->
  os_path_join d __VERSION_FP
  = (if bool_decide (d = py "/") then [] else d) ++ py "/" ++ __VERSION_FP.
Proof.
  unfold no_trailing_slash, os_path_join.
  change (startswith (py "/") __VERSION_FP) with false. cbv iota.
  case_bool_decide as Hd.
  - subst d. reflexivity.
  - simpl orb. destruct (last d) as [c|]; [|discriminate].
    intros Hc. apply negb_true_iff in Hc. rewrite Hc. reflexivity.
Qed.

(** X9.  For directories written without a trailing slash (or the root),
    the writer and the reader of the version use the same file exactly when
    the working directory is the directory of the script. *)
Theorem same_file_iff_same_directory (e : env) :
  no_trailing_slash (cwd e) = true ->
  no_trailing_slash (script_dir e) = true ->
  (write_path e = read_path e <-> cwd e = script_dir e).
Proof.
  intros Hc Hs. split; [|apply same_directory].
  unfold write_path, read_path, resolve.
  rewrite (generated_path_of_dir _ Hc), (generated_path_of_dir _ Hs).
  intros H. apply app_inv_tail in H.
  assert (Hnil : forall d, no_trailing_slash d = true -> d <> []).
  { intros d Hd ->. discriminate. }
  repeat case_bool_decide; subst; try congruence.
  - symmetry in H. apply Hnil in Hs. contradiction.
  - apply Hnil in Hc. contradiction.
Qed.

Lemma same_file_iff_same_directory_witness :
  write_path Sample.elsewhere <> read_path Sample.elsewhere.
Proof.
  intros H.
  apply (same_file_iff_same_directory Sample.elsewhere eq_refl eq_refl) in H.
  discriminate.
Defined.
End Stripping.

(** ** The reader of the generated file *)

Section Reader.
Import VersionHelper.

Lemma split_not_contained sep s :
  contains sep s = false -> split sep s = [s].
Proof.
  unfold contains. induction s as [|c s IH]; [reflexivity|].
  cbn [existsb]. rewrite orb_false_iff. intros [Hc Hs].
  assert (Hc' : chr_eqb c sep = false)
    by (apply chr_eqb_neq; apply chr_eqb_neq in Hc; congruence).
  rewrite split_cons, IH by auto. reflexivity.
Qed.

Lemma split_nonempty sep s : split sep s <> [].
Proof.
  destruct s as [|c s]; simpl; [discriminate|].
  destruct (chr_eqb c sep); [discriminate|].
  destruct (split sep s); discriminate.
Qed.

Lemma split_contained sep s :
  contains sep s = true -> exists a b rest, split sep s = a :: b :: rest.
Proof.
  unfold contains. induction s as [|c s IH]; [discriminate|].
  cbn [existsb]. intros H. simpl.
  destruct (chr_eqb c sep) eqn:Hc.
  - destruct (split sep s) as [|b rest] eqn:E;
      [destruct (split_nonempty _ _ E) | eauto].
  - assert (Hc' : chr_eqb sep c = false)
      by (apply chr_eqb_neq; apply chr_eqb_neq in Hc; congruence).
    rewrite Hc' in H. destruct (IH H) as (a & b & rest & ->). simpl. eauto.
Qed.

Lemma scan_lines_no_version lines :
  forallb (fun l => negb (startswith (py "__version__") l)) lines = true ->
  scan_lines lines = inl (RuntimeError (py "Unable to find version string.")).
Proof.
  induction lines as [|l lines IH]; [reflexivity|].
  cbn [forallb]. intros H. apply andb_true_iff in H as [Hl H].
  apply negb_true_iff in Hl. rewrite scan_lines_skip by exact Hl. auto.
Qed.

Lemma scan_lines_first lines line rest :
  forallb (fun l => negb (startswith (py "__version__") l)) lines = true ->
  scan_lines (lines ++ line :: rest) = scan_lines (line :: rest).
Proof.
  induction lines as [|l lines IH]; [reflexivity|].
  cbn [forallb]. intros H. apply andb_true_iff in H as [Hl H].
  apply negb_true_iff in Hl. simpl app. rewrite scan_lines_skip by exact Hl.
  auto.
Qed.

Lemma scan_lines_version_line line rest :
  startswith (py "__version__") line = true ->
  scan_lines (line :: rest)
  = match split (if contains DQUOTE line then DQUOTE else SQUOTE) line !! 1%nat with
    | Some v => inr v
    | None => inl IndexError
    end.
Proof. simpl. intros ->. reflexivity. Qed.

(** X10.  Reading a file, the version is not found, and RuntimeError
    "Unable to find version string." is raised, exactly when no line of the
    file starts with __version__. *)
Theorem version_not_found_iff (text : str) :
  parse_version text
  = inl (RuntimeError (py "Unable to find version string."))
  <-> forallb (fun l => negb (startswith (py "__version__") l))
              (splitlines (universal_newlines text)) = true.
Proof.
  unfold parse_version. split; [|apply scan_lines_no_version].
  induction (splitlines (universal_newlines text)) as [|l lines IH];
    [reflexivity|].
  cbn [forallb]. destruct (startswith (py "__version__") l) eqn:Hl.
  - rewrite scan_lines_version_line by exact Hl.
    destruct (split _ l !! 1%nat); discriminate.
  - rewrite scan_lines_skip by exact Hl. exact IH.
Qed.

(** X11.  The first line that starts with __version__ decides, whatever
    follows it; on that line the lookup of the quoted value raises
    IndexError exactly when the line contains neither a double nor a single
    quote. *)
Theorem first_version_line_decides (before : list str) (line : str)
    (after : list str) :
  forallb (fun l => negb (startswith (py "__version__") l)) before = true ->
  startswith (py "__version__") line = true ->
  scan_lines (before ++ line :: after) = scan_lines [line]
  /\ (scan_lines [line] = inl IndexError
      <-> contains DQUOTE line = false /\ contains SQUOTE line = false)
  /\ scan_lines [line]
     <> inl (RuntimeError (py "Unable to find version string.")).
Proof.
  intros Hb Hl. rewrite (scan_lines_first _ _ _ Hb).
  rewrite !(scan_lines_version_line _ _ Hl). split; [reflexivity|].
  destruct (contains DQUOTE line) eqn:Hd.
  - destruct (split_contained _ _ Hd) as (a & b & rest & ->). simpl.
    split; [|discriminate]. split; [discriminate | intros [? _]; discriminate].
  - destruct (contains SQUOTE line) eqn:Hs.
    + destruct (split_contained _ _ Hs) as (a & b & rest & ->). simpl.
      split; [|discriminate]. split; [discriminate | intros [_ ?]; discriminate].
    + rewrite (split_not_contained _ _ Hs). simpl.
      split; [|discriminate]. split; auto.
Qed.

Lemma first_version_line_decides_witness :
  scan_lines [py "# generated"; py "__version__ = 1.2.3"; py "__version__ = '2.0.0'"]
  = inl IndexError.
Proof.
  refine (eq_trans (proj1 (first_version_line_decides
                             [py "# generated"] (py "__version__ = 1.2.3")
                             [py "__version__ = '2.0.0'"] eq_refl eq_refl)) _).
  apply (proj1 (proj2 (first_version_line_decides
                         [py "# generated"] (py "__version__ = 1.2.3")
                         [py "__version__ = '2.0.0'"] eq_refl eq_refl))).
  split; reflexivity.
Defined.

(** X12.  A version line whose value stands between single quotes is read
    back as that value, provided the line contains no double quote: a
    double quote anywhere on the line makes it the delimiter. *)
Theorem single_quoted_value (key value tail : str) (after : list str) :
  startswith (py "__version__") key = true ->
  contains SQUOTE key = false ->
  contains SQUOTE value = false ->
  contains DQUOTE (key ++ [SQUOTE] ++ value ++ [SQUOTE] ++ tail) = false ->
  scan_lines ((key ++ [SQUOTE] ++ value ++ [SQUOTE] ++ tail) :: after)
  = inr value.
Proof.
  intros Hk Hkq Hvq Hdq.
  assert (Hno : forall s, contains SQUOTE s = false ->
            forallb (fun c => negb (chr_eqb c SQUOTE)) s = true).
  { intros s. unfold contains. induction s as [|c s IH]; [reflexivity|].
    cbn [existsb forallb]. rewrite orb_false_iff. intros [Hc Hs].
    assert (Hc' : chr_eqb c SQUOTE = false)
      by (apply chr_eqb_neq; apply chr_eqb_neq in Hc; congruence).
    rewrite Hc'. cbn [negb andb]. auto. }
  assert (Hstart : forall p a b, startswith p a = true ->
                                 startswith p (a ++ b) = true).
  { induction p as [|x p IH]; intros a b; [reflexivity|].
    destruct a as [|y a]; [discriminate|]. simpl.
    rewrite !andb_true_iff. intros [-> H]. split; [reflexivity|]. auto. }
  rewrite scan_lines_version_line by (apply Hstart, Hk).
  rewrite Hdq. simpl ([SQUOTE] ++ _).
  rewrite split_app_sep by (apply Hno, Hkq).
  rewrite split_app_sep by (apply Hno, Hvq). reflexivity.
Qed.

Lemma single_quoted_value_witness :
  scan_lines [py "__version__ = '0.1.0'  # release"] = inr (py "0.1.0").
Proof.
  apply (single_quoted_value (py "__version__ = ") (py "0.1.0")
           (py "  # release") []); reflexivity.
Defined.
End Reader.

(** ** Extra flags and the descriptor *)

Section ExtraFlags.

Lemma chr_eqb_true_eq a b : chr_eqb a b = true -> a = b.
Proof. apply chr_eqb_eq. Qed.

Lemma join_cons_first sep c parts :
  parts <> [] ->
  join [sep] (cons_first c parts) = c :: join [sep] parts.
Proof. destruct parts as [|w [|w' ws]]; [congruence | reflexivity..]. Qed.

Lemma join_split sep s : join [sep] (split sep s) = s.
Proof.
  induction s as [|c s IH]; [reflexivity|]. simpl.
  destruct (chr_eqb c sep) eqn:Hc.
  - apply chr_eqb_true_eq in Hc as ->.
    destruct (split sep s) as [|w ws] eqn:E; [destruct (split_nonempty _ _ E)|].
    rewrite join_cons, IH. reflexivity.
  - rewrite join_cons_first by apply split_nonempty. rewrite IH. reflexivity.
Qed.

Lemma split_parts_without_sep sep s :
  Forall (fun part => contains sep part = false) (split sep s).
Proof.
  induction s as [|c s IH]; [repeat constructor|]. simpl.
  destruct (chr_eqb c sep) eqn:Hc; [constructor; [reflexivity | exact IH]|].
  assert (Hc' : chr_eqb sep c = false)
    by (apply chr_eqb_neq; apply chr_eqb_neq in Hc; congruence).
  destruct (split sep s) as [|w ws]; simpl.
  - repeat constructor. unfold contains. cbn [existsb]. rewrite Hc'. reflexivity.
  - inversion IH as [|? ? Hw Hws]; subst. constructor; [|exact Hws].
    unfold contains in *. cbn [existsb]. rewrite Hc', Hw. reflexivity.
Qed.

Lemma split_length sep s : length (split sep s) = S (count_chr sep s).
Proof.
  induction s as [|c s IH]; [reflexivity|]. simpl.
  destruct (chr_eqb c sep); simpl; [rewrite IH; reflexivity|].
  destruct (split sep s) as [|w ws] eqn:E; [destruct (split_nonempty _ _ E)|].
  simpl in *. exact IH.
Qed.

Lemma split_snoc_sep sep s : split sep (s ++ [sep]) = split sep s ++ [[]].
Proof.
  induction s as [|c s IH]; simpl.
  - rewrite chr_eqb_refl. reflexivity.
  - destruct (chr_eqb c sep); rewrite IH; [reflexivity|].
    destruct (split sep s) as [|w ws] eqn:E; [destruct (split_nonempty _ _ E)|].
    reflexivity.
Qed.

(** X13.  When PECOS_MANUAL_COMPILE_ARGS is set to a non-empty string,
    joining the extra flags with commas gives back the value of the
    variable, and no extra flag contains a comma. *)
Theorem extra_flags_round_trip (environ : gmap str str) (value : str) :
  environ !! py "PECOS_MANUAL_COMPILE_ARGS" = Some value ->
  value <> [] ->
  join (py ",") (manual_compile_args environ) = value
  /\ Forall (fun flag => contains ","%char flag = false)
            (manual_compile_args environ).
Proof.
  intros H Hne. rewrite (manual_compile_args_set _ _ H).
  destruct value as [|c value]; [congruence|]. split.
  - apply (join_split ","%char).
  - apply split_parts_without_sep.
Qed.

Lemma extra_flags_round_trip_witness :
  join (py ",") (manual_compile_args Sample.extra_flags_set)
  = py "-Werror,-Wall".
Proof.
  apply (extra_flags_round_trip Sample.extra_flags_set (py "-Werror,-Wall"));
    [reflexivity | discriminate].
Defined.

(** X14.  When PECOS_MANUAL_COMPILE_ARGS is set to a non-empty string, the
    number of extra flags is one more than the number of commas in it:
    empty entries are kept, and a value that ends with a comma gives an
    empty string as last flag. *)
Theorem extra_flags_keep_empty_entries (environ : gmap str str) (value : str) :
  environ !! py "PECOS_MANUAL_COMPILE_ARGS" = Some value ->
  value <> [] ->
  length (manual_compile_args environ) = S (count_chr ","%char value)
  /\ (forall v, value = v ++ py "," ->
        manual_compile_args environ = split ","%char v ++ [[]]).
Proof.
  intros H Hne. rewrite (manual_compile_args_set _ _ H).
  destruct value as [|c value]; [congruence|]. split.
  - apply split_length.
  - intros v ->. apply (split_snoc_sep ","%char).
Qed.

Lemma extra_flags_keep_empty_entries_witness :
  manual_compile_args
    (<[py "PECOS_MANUAL_COMPILE_ARGS" := py "-Wall,"]> (∅ : gmap str str))
  = [py "-Wall"; []].
Proof.
  refine (proj2 (extra_flags_keep_empty_entries
                   (<[py "PECOS_MANUAL_COMPILE_ARGS" := py "-Wall,"]>
                      (∅ : gmap str str))
                   (py "-Wall,") _ _) (py "-Wall") _).
  - vm_compute. reflexivity.
  - discriminate.
  - reflexivity.
Defined.

End ExtraFlags.

Section Descriptor.
Import BlasHelper.

(** X15.  Whenever the script builds a descriptor, the system-info result
    held a non-empty libraries list and a non-empty library_dirs list; the
    libraries of the descriptor are gomp, gcc and then that list, its
    library directories are that directory list, and its link flags are
    -Wl,--no-as-needed and the run-path of those directories. *)
Theorem descriptor_comes_from_located_blas (info : gmap str (list str))
    (environ : gmap str str) (ext : Extension) :
  script_ext_module info environ = inr ext ->
  exists libs dirs,
    info !! py "libraries" = Some libs
    /\ info !! py "library_dirs" = Some dirs
    /\ libs <> [] /\ dirs <> []
    /\ libraries ext = py "gomp" :: py "gcc" :: libs
    /\ library_dirs ext = dirs
    /\ extra_link_args ext
       = [py "-Wl,--no-as-needed"; py "-Wl,-rpath," ++ join (py ":") dirs]
    /\ extra_compile_args ext
       = [py "-fopenmp"; py "-O3"; py "-std=c++14"] ++ manual_compile_args environ.
Proof.
  unfold script_ext_module. intros H.
  destruct (get_blas_lib_dir_cases info)
    as [-> | [(libs & dirs & Hl & Hd) | [key Hk]]].
  - rewrite get_blas_lib_dir_empty in H. discriminate.
  - rewrite (get_blas_lib_dir_entries _ _ _ Hl Hd) in H.
    destruct libs as [|l libs], dirs as [|d dirs]; try discriminate.
    injection H as <-. exists (l :: libs), (d :: dirs).
    repeat split; auto; discriminate.
  - rewrite Hk in H. discriminate.
Qed.

Lemma descriptor_comes_from_located_blas_witness :
  exists libs dirs,
    Sample.openblas !! py "libraries" = Some libs
    /\ Sample.openblas !! py "library_dirs" = Some dirs
    /\ libs <> [] /\ dirs <> []
    /\ libraries (ext_module [py "openblas"] [py "/usr/lib"] []) 
       = py "gomp" :: py "gcc" :: libs
    /\ library_dirs (ext_module [py "openblas"] [py "/usr/lib"] []) = dirs
    /\ extra_link_args (ext_module [py "openblas"] [py "/usr/lib"] [])
       = [py "-Wl,--no-as-needed"; py "-Wl,-rpath," ++ join (py ":") dirs]
    /\ extra_compile_args (ext_module [py "openblas"] [py "/usr/lib"] [])
       = [py "-fopenmp"; py "-O3"; py "-std=c++14"] ++ manual_compile_args ∅.
Proof.
  apply (descriptor_comes_from_located_blas Sample.openblas ∅). reflexivity.
Defined.

(** X16.  A system-info result that is not empty but has no libraries
    entry, or has one but no library_dirs entry, makes get_blas_lib_dir raise
    KeyError for the missing key, not the assertion error about BLAS, and
    this even when the libraries list that is there is empty. *)
Theorem missing_entry_raises_key_error (info : gmap str (list str)) :
  info <> ∅ ->
  (info !! py "libraries" = None ->
   get_blas_lib_dir info = inl (KeyError (py "libraries")))
  /\ (forall libs,
        info !! py "libraries" = Some libs ->
        info !! py "library_dirs" = None ->
        get_blas_lib_dir info = inl (KeyError (py "library_dirs"))).
Proof.
  intros Hne. unfold get_blas_lib_dir.
  rewrite bool_decide_eq_false_2 by exact Hne. split.
  - intros ->. reflexivity.
  - intros libs -> ->. reflexivity.
Qed.

Lemma missing_entry_raises_key_error_witness :
  get_blas_lib_dir
    (<[py "extra_link_args" := [py "-Wl,-framework"; py "-Wl,Accelerate"]]>
       (∅ : gmap str (list str)))
  = inl (KeyError (py "libraries"))
  /\ get_blas_lib_dir (<[py "libraries" := []]> (∅ : gmap str (list str)))
     = inl (KeyError (py "library_dirs")).
Proof.
  split.
  - refine (proj1 (missing_entry_raises_key_error _ _) _).
    + apply insert_non_empty.
    + vm_compute. reflexivity.
  - refine (proj2 (missing_entry_raises_key_error _ _) [] _ _).
    + apply insert_non_empty.
    + vm_compute. reflexivity.
    + vm_compute. reflexivity.
Defined.

End Descriptor.

(** ** The script *)

Section Script.
Import VersionHelper.

Lemma read_file_present path text st :
  files st !! path = Some text ->
  read_file path st = (inr (universal_newlines text), st).
Proof. unfold read_file. intros ->. reflexivity. Qed.

Lemma read_file_absent path st :
  files st !! path = None ->
  read_file path st = (inl (FileNotFoundError path), st).
Proof. unfold read_file. intros ->. reflexivity. Qed.

(** X17.  When README.md is missing from the working directory, the script
    raises FileNotFoundError for it before anything else: no file is
    written, no warning is issued and nothing is printed, whatever BLAS
    and git would have answered. *)
Theorem script_needs_readme (e : env) (info : gmap str (list str))
    (environ : gmap str str) (st : state) :
  files st !! resolve (cwd e) (py "README.md") = None ->
  script e info environ st
  = (inl (FileNotFoundError (resolve (cwd e) (py "README.md"))), st).
Proof.
  intros H. unfold script. apply bind_raise, read_file_absent, H.
Qed.

Lemma script_needs_readme_witness :
  script Sample.in_checkout Sample.openblas ∅ (Sample.no_effects ∅)
  = (inl (FileNotFoundError (py "/src/pecos/README.md")), Sample.no_effects ∅).
Proof.
  apply (script_needs_readme Sample.in_checkout Sample.openblas ∅
           (Sample.no_effects ∅)).
  reflexivity.
Defined.



Lemma script_composes e info environ st readme ext v st' :
  files st !! resolve (cwd e) (py "README.md") = Some readme ->
  script_ext_module info environ = inr ext ->
  get_version e st = (inr v, st') ->
  script e info environ st
  = (inr {| arg_version := v;
            arg_long_description := universal_newlines readme;
            arg_ext_modules := [ext];
            arg_setup_requires := setup_requires;
            arg_install_requires := install_requires |}, st').
Proof.
  intros Hr He Hv. unfold script.
  rewrite (bind_ok _ _ _ _ _ (read_file_present _ _ _ Hr)).
  erewrite bind_ok by (unfold lift; rewrite He; reflexivity).
  rewrite (bind_ok _ _ _ _ _ Hv). reflexivity.
Qed.

Lemma readme_is_not_the_version_file e :
  resolve (cwd e) (py "README.md") <> write_path e.
Proof.
  unfold write_path, resolve, os_path_join.
  change (startswith (py "/") __VERSION_FP) with false.
  change (startswith (py "/") (py "README.md")) with false. cbv iota.
  destruct (last (cwd e)) as [c|]; [destruct (chr_eqb c "/")|];
    intros H; try apply app_inv_head in H; discriminate.
Qed.

(** X19.  With README.md in the working directory, non-empty libraries and
    library_dirs entries in the system-info result, a tag
    v<int>.<int>.<int> and the working directory being the directory of the
    script, the script reaches the call of setup: with the version
    <int>.<int>.<int>, the text of README.md read with universal newlines
    as long description, and the one descriptor built from the located
    lists and the extra flags; README.md is left as it was. *)
Theorem script_reaches_setup (e : env) (info : gmap str (list str))
    (environ : gmap str str) (st : state) (readme : str)
    (libs dirs : list str) (major minor patch ws : str) :
  files st !! resolve (cwd e) (py "README.md") = Some readme ->
  info !! py "libraries" = Some libs ->
  info !! py "library_dirs" = Some dirs ->
  libs <> [] -> dirs <> [] ->
  is_int major = true -> is_int minor = true -> is_int patch = true ->
  all_space ws = true ->
  isdir_git e = true -> git_returncode e = 0%Z ->
  git_stdout e = tag_text major minor patch ++ ws ->
  cwd e = script_dir e ->
  fst (script e info environ st)
  = inr {| arg_version := version_text major minor patch;
           arg_long_description := universal_newlines readme;
           arg_ext_modules :=
             [ext_module libs dirs (manual_compile_args environ)];
           arg_setup_requires := setup_requires;
           arg_install_requires := install_requires |}
  /\ files (snd (script e info environ st)) !! resolve (cwd e) (py "README.md")
     = Some readme
  /\ files (snd (script e info environ st)) !! write_path e
     = Some (percent_s __VERSION_PY (version_text major minor patch)).
Proof.
  intros Hr Hl Hd Hlibs Hdirs H1 H2 H3 Hws Hgit Hrc Hout Hcwd.
  pose proof (version_of_tag e st _ _ _ _ H1 H2 H3 Hws Hgit Hrc Hout) as Hv.
  pose proof (get_version_same_dir _ _ _ Hv (same_directory _ Hcwd)) as Hrun.
  rewrite (upto_quote_id _ (version_text_plain _ _ _ H1 H2 H3)) in Hrun.
  rewrite (script_composes _ _ _ _ _ _ _ _ Hr
             (script_ext_module_located _ environ _ _ Hl Hd Hlibs Hdirs) Hrun).
  cbn [fst snd]. unfold after_update. cbn [files].
  split; [reflexivity|]. split.
  - rewrite lookup_insert_ne; [exact Hr|].
    intros H. symmetry in H. apply readme_is_not_the_version_file in H.
    exact H.
  - apply lookup_insert_eq.
Qed.

Lemma script_reaches_setup_witness :
  fst (script Sample.in_checkout Sample.openblas Sample.extra_flags_set
         (Sample.no_effects (<[py "/src/pecos/README.md" := py "PECOS"]> ∅)))
  = inr {| arg_version := py "1.2.3";
           arg_long_description := py "PECOS";
           arg_ext_modules :=
             [ext_module [py "openblas"] [py "/usr/lib"]
                         [py "-Werror"; py "-Wall"]];
           arg_setup_requires := setup_requires;
           arg_install_requires := install_requires |}.
Proof.
  refine (proj1 (script_reaches_setup Sample.in_checkout Sample.openblas
                   Sample.extra_flags_set
                   (Sample.no_effects
                      (<[py "/src/pecos/README.md" := py "PECOS"]> ∅))
                   (py "PECOS") [py "openblas"] [py "/usr/lib"]
                   (py "1") (py "2") (py "3") [LF]
                   _ _ _ _ _ _ _ _ _ _ _ _ _));
    try reflexivity; try discriminate; vm_compute; reflexivity.
Defined.
End Script.
